(** * The Shopify integration form: controller state machine

    A shallow embedding of the [ShopifyForm] component (its state cells and
    its four asynchronous handlers) and of the [ShopifyService] client it
    calls, followed by the properties of the status lifecycle.

    Modelling conventions.
    - Every [useState] cell is a field of [State]; a setter overwrites its
      field and nothing else.
    - A handler is a computation in the monad [M]: it threads the [World]
      (state cells plus a chronological trace of outward effects) and ends in
      a [Completion], normal or thrown, so that [try]/[catch]/[finally] keep
      the writes made before a throw, as they do in the source.
    - The remote service is not part of the program: what an [await] yields
      is an argument of the handler (an [Outcome]: the promise resolved with
      a response, or rejected).  The request itself is recorded in the trace
      together with the state the component shows while it is in flight.
    - A handler is first given whole, every awaited answer being one of
      its arguments.  It is then cut at its awaits, and a [session] lets
      clicks and answers come in any order the page allows, so that
      handlers overlap; the whole handler is the run of its pieces with
      nothing in between. *)

From Stdlib Require Import String Ascii List ZArith Bool Lia.
From Stdlib Require Import DecimalString DecimalZ.
Import ListNotations.
Local Open Scope string_scope.
Local Open Scope list_scope.

(** ** JavaScript values *)

(** Truthiness of a string: only the empty string is falsy. *)
Definition truthy (s : string) : bool := negb (s =? "").

(** Truthiness of an optional string ([undefined] is falsy). *)
Definition truthy_opt (o : option string) : bool :=
  match o with
  | Some s => truthy s
  | None => false
  end.

(** [o || d] where [o : string | undefined] and [d] is a string. *)
Definition or_else (o : option string) (d : string) : string :=
  match o with
  | Some s => if truthy s then s else d
  | None => d
  end.

(** U+2022 BULLET, as its three UTF-8 bytes. *)
Definition bullet : string :=
  String (ascii_of_nat 226) (String (ascii_of_nat 128)
    (String (ascii_of_nat 162) EmptyString)).

Fixpoint repeat_string (n : nat) (s : string) : string :=
  match n with
  | O => ""
  | S k => s ++ repeat_string k s
  end.

(** The literal the status card shows in place of a token: sixteen bullets. *)
Definition MASK : string := repeat_string 16 bullet.

(** ** Data model *)

(** [ShopifyConfig]: the body of a save, and the shape of the form draft. *)
Record FormData := mkFormData {
  form_store_url : string;
  form_access_token : string;
  form_api_version : string
}.

(** The [data] object of a [ShopifyConfigResponse]. *)
Record ConfigData := mkConfigData {
  data_id : Z;
  data_business_id : Z;
  data_store_url : string;
  data_access_token : option string;
  data_api_version : string;
  data_is_active : bool;
  data_created_at : string;
  data_updated_at : string
}.

Record ShopifyConfigResponse := mkConfigResponse {
  resp_success : bool;
  resp_data : option ConfigData;
  resp_error : option string
}.

(** [{ success: boolean; error?: string }] *)
Record DeleteResponse := mkDeleteResponse {
  del_success : bool;
  del_error : option string
}.

(** [{ success: boolean; error?: string; message?: string }] *)
Record TestResponse := mkTestResponse {
  test_success : bool;
  test_error : option string;
  test_message : option string
}.

(** The [integrationStatus] cell. *)
Record IntegrationStatus := mkStatus {
  isIntegrated : bool;
  status_store_url : option string;
  status_access_token : option string;
  status_api_version : option string;
  lastUpdated : option string
}.

(** [{ isIntegrated: false }] *)
Definition notIntegrated : IntegrationStatus :=
  mkStatus false None None None None.

(** The draft the form starts from, and returns to after a disconnect. *)
Definition defaultFormData : FormData := mkFormData "" "" "2024-01".

(** The seven [useState] cells of the component. *)
Record State := mkState {
  integrationStatus : IntegrationStatus;
  formData : FormData;
  loading : bool;
  saving : bool;
  deleting : bool;
  error : option string;
  success : option string
}.

Definition initialState : State :=
  mkState notIntegrated defaultFormData false false false None None.

(** A handle on a callback passed in by the parent. *)
Definition Callback := nat.

Record ShopifyFormProps := mkProps {
  businessId : Z;
  onSuccess : option Callback;
  onCancel : option Callback
}.

(** ** The client *)

(** The two business-scoped resource paths. *)
Inductive Path :=
| ShopifyConfigPath (businessId : Z)   (* /shopify/config/${businessId} *)
| ShopifyTestPath (businessId : Z).    (* /shopify/test/${businessId} *)

(** What is handed to [apiClient]. *)
Inductive Request :=
| Get (path : Path)
| Post (path : Path) (body : FormData)
| Delete (path : Path).

Module ShopifyService.

Definition getConfig (businessId : Z) : Request :=
  Get (ShopifyConfigPath businessId).

Definition saveConfig (businessId : Z) (config : FormData) : Request :=
  Post (ShopifyConfigPath businessId) config.

Definition deleteConfig (businessId : Z) : Request :=
  Delete (ShopifyConfigPath businessId).

Definition testConnection (businessId : Z) : Request :=
  Get (ShopifyTestPath businessId).

End ShopifyService.

(** ** Effects *)

(** How an awaited promise settles. *)
Inductive Outcome (A : Type) :=
| Resolved (a : A)
| Rejected (reason : string).
Arguments Resolved {A} a.
Arguments Rejected {A} reason.

(** Outward effects, in the order the component performs them. *)
Inductive Event :=
| EvCall (req : Request) (inflight : State)
| EvTimeout (cb : Callback) (ms : nat)
| EvConsoleError (msg : string) (err : string)
| EvConfirm (prompt : string).

Record World := mkWorld {
  st : State;
  trace : list Event
}.

Definition initialWorld : World := mkWorld initialState [].

Inductive Completion (A : Type) :=
| Normal (a : A)
| Throw (err : string).
Arguments Normal {A} a.
Arguments Throw {A} err.

Definition M (A : Type) : Type := World -> Completion A * World.

Definition ret {A} (a : A) : M A := fun w => (Normal a, w).

Definition bind {A B} (m : M A) (k : A -> M B) : M B :=
  fun w =>
    match m w with
    | (Normal a, w') => k a w'
    | (Throw e, w') => (Throw e, w')
    end.

Declare Scope ctrl_scope.
Delimit Scope ctrl_scope with ctrl.
Notation "x <- m ;; k" := (bind m (fun x => k))
  (at level 61, m at next level, right associativity) : ctrl_scope.
Notation "m ;; k" := (bind m (fun _ => k))
  (at level 61, right associativity) : ctrl_scope.
Local Open Scope ctrl_scope.

(** [try { body } catch (err) { handler } finally { fin }] *)
Definition try_catch_finally (body : M unit) (handler : string -> M unit)
    (fin : M unit) : M unit :=
  fun w =>
    let '(c, w1) :=
      match body w with
      | (Normal a, w') => (Normal a, w')
      | (Throw e, w') => handler e w'
      end in
    match fin w1 with
    | (Normal _, w2) => (c, w2)
    | (Throw e, w2) => (Throw e, w2)
    end.

Definition modify (f : State -> State) : M unit :=
  fun w => (Normal tt, mkWorld (f (st w)) (trace w)).

Definition read {A} (f : State -> A) : M A :=
  fun w => (Normal (f (st w)), w).

Definition emit (e : Event) : M unit :=
  fun w => (Normal tt, mkWorld (st w) (trace w ++ [e])).

(** [await] of a client call: the request goes out while the component
    shows the current state; the promise then settles as [o] says. *)
Definition await {A} (req : Request) (o : Outcome A) : M A :=
  fun w =>
    let w' := mkWorld (st w) (trace w ++ [EvCall req (st w)]) in
    match o with
    | Resolved a => (Normal a, w')
    | Rejected e => (Throw e, w')
    end.

Definition exec {A} (m : M A) (w : World) : World := snd (m w).
Definition completion {A} (m : M A) (w : World) : Completion A := fst (m w).

(** The state setters. *)
Definition setIntegrationStatus (v : IntegrationStatus) : M unit :=
  modify (fun s => mkState v (formData s) (loading s) (saving s)
                     (deleting s) (error s) (success s)).

Definition setFormData (v : FormData) : M unit :=
  modify (fun s => mkState (integrationStatus s) v (loading s) (saving s)
                     (deleting s) (error s) (success s)).

Definition setLoading (v : bool) : M unit :=
  modify (fun s => mkState (integrationStatus s) (formData s) v (saving s)
                     (deleting s) (error s) (success s)).

Definition setSaving (v : bool) : M unit :=
  modify (fun s => mkState (integrationStatus s) (formData s) (loading s) v
                     (deleting s) (error s) (success s)).

Definition setDeleting (v : bool) : M unit :=
  modify (fun s => mkState (integrationStatus s) (formData s) (loading s)
                     (saving s) v (error s) (success s)).

Definition setError (v : option string) : M unit :=
  modify (fun s => mkState (integrationStatus s) (formData s) (loading s)
                     (saving s) (deleting s) v (success s)).

Definition setSuccess (v : option string) : M unit :=
  modify (fun s => mkState (integrationStatus s) (formData s) (loading s)
                     (saving s) (deleting s) (error s) v).

Definition console_error (msg err : string) : M unit :=
  emit (EvConsoleError msg err).

(** [if (onSuccess) setTimeout(() => onSuccess(), 1500)] *)
Definition scheduleOnSuccess (props : ShopifyFormProps) : M unit :=
  match onSuccess props with
  | Some cb => emit (EvTimeout cb 1500)
  | None => ret tt
  end.

(** ** The handlers *)

Definition fetchIntegrationStatus (props : ShopifyFormProps)
    (o : Outcome ShopifyConfigResponse) : M unit :=
  try_catch_finally
    (setLoading true ;;
     setError None ;;
     response <- await (ShopifyService.getConfig (businessId props)) o ;;
     match resp_success response, resp_data response with
     | true, Some data =>
         setIntegrationStatus
           (mkStatus true
              (Some (data_store_url data))
              (if truthy_opt (data_access_token data) then Some MASK else None)
              (Some (data_api_version data))
              (Some (data_updated_at data))) ;;
         setFormData
           (mkFormData (data_store_url data) "" (data_api_version data))
     | _, _ => setIntegrationStatus notIntegrated
     end)
    (fun err =>
       console_error "Error fetching integration status:" err ;;
       setError (Some "Failed to fetch integration status") ;;
       setIntegrationStatus notIntegrated)
    (setLoading false).

(** The mount effect, re-run whenever [businessId] changes. *)
Definition mountEffect (props : ShopifyFormProps)
    (o : Outcome ShopifyConfigResponse) : M unit :=
  if (businessId props =? 0)%Z then ret tt
  else fetchIntegrationStatus props o.

(** [setFormData(prev => ({ ...prev, [field]: value }))].  The form calls it
    with the three field names below; any other key leaves the three draft
    fields as they are. *)
Definition handleInputChange (field value : string) : M unit :=
  modify (fun s =>
    let prev := formData s in
    let next :=
      if field =? "store_url" then
        mkFormData value (form_access_token prev) (form_api_version prev)
      else if field =? "access_token" then
        mkFormData (form_store_url prev) value (form_api_version prev)
      else if field =? "api_version" then
        mkFormData (form_store_url prev) (form_access_token prev) value
      else prev in
    mkState (integrationStatus s) next (loading s) (saving s) (deleting s)
      (error s) (success s)).

(** [o_save] settles the save call; [o_get] settles the status call made by
    the nested [fetchIntegrationStatus], when the handler gets that far. *)
Definition handleSaveConfig (props : ShopifyFormProps)
    (o_save o_get : Outcome ShopifyConfigResponse) : M unit :=
  draft <- read formData ;;
  try_catch_finally
    (setSaving true ;;
     setError None ;;
     setSuccess None ;;
     response <- await (ShopifyService.saveConfig (businessId props) draft)
                   o_save ;;
     if resp_success response then
       setSuccess (Some "Shopify configuration saved successfully!") ;;
       fetchIntegrationStatus props o_get ;;
       scheduleOnSuccess props
     else
       setError (Some (or_else (resp_error response)
                         "Failed to save configuration")))
    (fun err =>
       console_error "Error saving config:" err ;;
       setError (Some "An unexpected error occurred"))
    (setSaving false).

(** [confirmed] is the answer given to [window.confirm]. *)
Definition handleDeleteConfig (props : ShopifyFormProps) (confirmed : bool)
    (o : Outcome DeleteResponse) : M unit :=
  emit (EvConfirm "Are you sure you want to disconnect Shopify?") ;;
  if negb confirmed then ret tt
  else
    try_catch_finally
      (setDeleting true ;;
       setError None ;;
       setSuccess None ;;
       response <- await (ShopifyService.deleteConfig (businessId props)) o ;;
       if del_success response then
         setSuccess (Some "Shopify disconnected successfully!") ;;
         setIntegrationStatus notIntegrated ;;
         setFormData (mkFormData "" "" "2024-01") ;;
         scheduleOnSuccess props
       else
         setError (Some (or_else (del_error response) "Failed to disconnect")))
      (fun err =>
         console_error "Error deleting config:" err ;;
         setError (Some "An unexpected error occurred"))
      (setDeleting false).

Definition handleTestConnection (props : ShopifyFormProps)
    (o : Outcome TestResponse) : M unit :=
  try_catch_finally
    (setLoading true ;;
     setError None ;;
     setSuccess None ;;
     response <- await (ShopifyService.testConnection (businessId props)) o ;;
     if test_success response then
       setSuccess (Some (or_else (test_message response)
                           "Connection successful!"))
     else
       setError (Some (or_else (test_error response)
                         "Connection test failed")))
    (fun err =>
       console_error "Error testing connection:" err ;;
       setError (Some "Connection test failed"))
    (setLoading false).

(** ** User sessions *)

(** What can happen to a mounted form, with how the remote calls settle. *)
Inductive Action :=
| AMount (o : Outcome ShopifyConfigResponse)
| AInput (field value : string)
| ASave (o_save o_get : Outcome ShopifyConfigResponse)
| ADelete (confirmed : bool) (o : Outcome DeleteResponse)
| ATest (o : Outcome TestResponse).

Definition perform (props : ShopifyFormProps) (a : Action) : M unit :=
  match a with
  | AMount o => mountEffect props o
  | AInput field value => handleInputChange field value
  | ASave o_save o_get => handleSaveConfig props o_save o_get
  | ADelete confirmed o => handleDeleteConfig props confirmed o
  | ATest o => handleTestConnection props o
  end.

(** The render's guards: which controls exist and are not disabled. *)
Definition enabled (s : State) (a : Action) : bool :=
  match a with
  | AMount _ => true
  | AInput _ _ => negb (loading s || saving s)
  | ASave _ _ => negb (saving s || loading s)
  | ADelete _ _ =>
      isIntegrated (integrationStatus s) && negb (deleting s || loading s)
  | ATest _ => isIntegrated (integrationStatus s) && negb (loading s)
  end.

(** Sessions in which no handler starts while another is still pending:
    every handler runs to its end before the next click.  The props may
    differ from one render to the next. *)
Inductive sequential : World -> Prop :=
| seq_init : sequential initialWorld
| seq_step (props : ShopifyFormProps) (a : Action) (w : World) :
    sequential w ->
    enabled (st w) a = true ->
    sequential (exec (perform props a) w).

(** ** Handlers, cut at their awaits *)

(** An [async] handler runs from the click to its first [await] in one go,
    and from the answer of an awaited call to the next [await], or to its
    end, in one go.  Between the two any other handler may start or go on:
    the page stays live, and a control is off only through its own
    [disabled] expression. *)

(** The call goes out; the page shows the current state meanwhile. *)
Definition send (req : Request) : M unit :=
  fun w => (Normal tt, mkWorld (st w) (trace w ++ [EvCall req (st w)])).

(** The awaited promise settles. *)
Definition settle {A} (o : Outcome A) : M A :=
  fun w =>
    match o with
    | Resolved a => (Normal a, w)
    | Rejected e => (Throw e, w)
    end.

Definition fetch_begin (props : ShopifyFormProps) : M unit :=
  setLoading true ;;
  setError None ;;
  send (ShopifyService.getConfig (businessId props)).

Definition fetch_end (props : ShopifyFormProps)
    (o : Outcome ShopifyConfigResponse) : M unit :=
  try_catch_finally
    (response <- settle o ;;
     match resp_success response, resp_data response with
     | true, Some data =>
         setIntegrationStatus
           (mkStatus true
              (Some (data_store_url data))
              (if truthy_opt (data_access_token data) then Some MASK else None)
              (Some (data_api_version data))
              (Some (data_updated_at data))) ;;
         setFormData
           (mkFormData (data_store_url data) "" (data_api_version data))
     | _, _ => setIntegrationStatus notIntegrated
     end)
    (fun err =>
       console_error "Error fetching integration status:" err ;;
       setError (Some "Failed to fetch integration status") ;;
       setIntegrationStatus notIntegrated)
    (setLoading false).

Definition save_begin (props : ShopifyFormProps) : M unit :=
  draft <- read formData ;;
  setSaving true ;;
  setError None ;;
  setSuccess None ;;
  send (ShopifyService.saveConfig (businessId props) draft).

(** Whether the answer to the save call sends the handler on to the status
    fetch. *)
Definition save_goes_on (o : Outcome ShopifyConfigResponse) : bool :=
  match o with
  | Resolved response => resp_success response
  | Rejected _ => false
  end.

(** From the answer of the save call to the [await] of the status fetch,
    or to the end of the handler when there is no fetch. *)
Definition save_post_end (props : ShopifyFormProps)
    (o : Outcome ShopifyConfigResponse) : M unit :=
  if save_goes_on o then
    setSuccess (Some "Shopify configuration saved successfully!") ;;
    fetch_begin props
  else
    try_catch_finally
      (response <- settle o ;;
       setError (Some (or_else (resp_error response)
                         "Failed to save configuration")))
      (fun err =>
         console_error "Error saving config:" err ;;
         setError (Some "An unexpected error occurred"))
      (setSaving false).

(** From the answer of the nested status fetch to the end of the save. *)
Definition save_get_end (props : ShopifyFormProps)
    (o : Outcome ShopifyConfigResponse) : M unit :=
  fetch_end props o ;;
  scheduleOnSuccess props ;;
  setSaving false.

Definition delete_ask : M unit :=
  emit (EvConfirm "Are you sure you want to disconnect Shopify?").

Definition delete_begin (props : ShopifyFormProps) : M unit :=
  delete_ask ;;
  setDeleting true ;;
  setError None ;;
  setSuccess None ;;
  send (ShopifyService.deleteConfig (businessId props)).

Definition delete_end (props : ShopifyFormProps)
    (o : Outcome DeleteResponse) : M unit :=
  try_catch_finally
    (response <- settle o ;;
     if del_success response then
       setSuccess (Some "Shopify disconnected successfully!") ;;
       setIntegrationStatus notIntegrated ;;
       setFormData (mkFormData "" "" "2024-01") ;;
       scheduleOnSuccess props
     else
       setError (Some (or_else (del_error response) "Failed to disconnect")))
    (fun err =>
       console_error "Error deleting config:" err ;;
       setError (Some "An unexpected error occurred"))
    (setDeleting false).

Definition test_begin (props : ShopifyFormProps) : M unit :=
  setLoading true ;;
  setError None ;;
  setSuccess None ;;
  send (ShopifyService.testConnection (businessId props)).

Definition test_end (props : ShopifyFormProps)
    (o : Outcome TestResponse) : M unit :=
  try_catch_finally
    (response <- settle o ;;
     if test_success response then
       setSuccess (Some (or_else (test_message response)
                           "Connection successful!"))
     else
       setError (Some (or_else (test_error response)
                         "Connection test failed")))
    (fun err =>
       console_error "Error testing connection:" err ;;
       setError (Some "Connection test failed"))
    (setLoading false).

(** ** Sessions with overlapping handlers *)

(** What starts a handler. *)
Inductive Click :=
| CMount
| CInput (field value : string)
| CSave
| CDelete (confirmed : bool)
| CTest.

Definition click_of (a : Action) : Click :=
  match a with
  | AMount _ => CMount
  | AInput field value => CInput field value
  | ASave _ _ => CSave
  | ADelete confirmed _ => CDelete confirmed
  | ATest _ => CTest
  end.

(** The render's guards again, on the clicks. *)
Definition click_enabled (s : State) (c : Click) : bool :=
  match c with
  | CMount => true
  | CInput _ _ => negb (loading s || saving s)
  | CSave => negb (saving s || loading s)
  | CDelete _ =>
      isIntegrated (integrationStatus s) && negb (deleting s || loading s)
  | CTest => isIntegrated (integrationStatus s) && negb (loading s)
  end.

(** A handler suspended at an [await], with the props of the render whose
    closure it is. *)
Inductive Pending :=
| PFetch (props : ShopifyFormProps)      (* status fetch, at getConfig *)
| PSavePost (props : ShopifyFormProps)   (* save, at saveConfig *)
| PSaveGet (props : ShopifyFormProps)    (* save, at the nested getConfig *)
| PDelete (props : ShopifyFormProps)     (* delete, at deleteConfig *)
| PTest (props : ShopifyFormProps).      (* test, at testConnection *)

(** From the click to the first [await]. *)
Definition click_run (props : ShopifyFormProps) (c : Click) : M unit :=
  match c with
  | CMount =>
      if (businessId props =? 0)%Z then ret tt else fetch_begin props
  | CInput field value => handleInputChange field value
  | CSave => save_begin props
  | CDelete confirmed => if negb confirmed then delete_ask
                         else delete_begin props
  | CTest => test_begin props
  end.

Definition click_pending (props : ShopifyFormProps) (c : Click)
    : list Pending :=
  match c with
  | CMount => if (businessId props =? 0)%Z then [] else [PFetch props]
  | CInput _ _ => []
  | CSave => [PSavePost props]
  | CDelete confirmed => if negb confirmed then [] else [PDelete props]
  | CTest => [PTest props]
  end.

(** How the service answers a pending call. *)
Inductive Answer :=
| AnsConfig (o : Outcome ShopifyConfigResponse)
| AnsDelete (o : Outcome DeleteResponse)
| AnsTest (o : Outcome TestResponse).

Definition answer_fits (p : Pending) (ans : Answer) : bool :=
  match p, ans with
  | PFetch _, AnsConfig _ => true
  | PSavePost _, AnsConfig _ => true
  | PSaveGet _, AnsConfig _ => true
  | PDelete _, AnsDelete _ => true
  | PTest _, AnsTest _ => true
  | _, _ => false
  end.

(** From the answer to the next [await], or to the end. *)
Definition resume (p : Pending) (ans : Answer) : M unit :=
  match p, ans with
  | PFetch props, AnsConfig o => fetch_end props o
  | PSavePost props, AnsConfig o => save_post_end props o
  | PSaveGet props, AnsConfig o => save_get_end props o
  | PDelete props, AnsDelete o => delete_end props o
  | PTest props, AnsTest o => test_end props o
  | _, _ => ret tt
  end.

(** What the handler is suspended at afterwards, if anything. *)
Definition resume_pending (p : Pending) (ans : Answer) : list Pending :=
  match p, ans with
  | PSavePost props, AnsConfig o =>
      if save_goes_on o then [PSaveGet props] else []
  | _, _ => []
  end.

Record Config := mkConfig {
  world : World;
  pending : list Pending
}.

(** A session: clicks on controls that are on the page and not disabled,
    and answers to pending calls, in any order. *)
Inductive session : Config -> Prop :=
| session_init : session (mkConfig initialWorld [])
| session_click (props : ShopifyFormProps) (c : Click) (w : World)
    (ps : list Pending) :
    session (mkConfig w ps) ->
    click_enabled (st w) c = true ->
    session (mkConfig (exec (click_run props c) w)
               (click_pending props c ++ ps))
| session_answer (p : Pending) (ans : Answer) (w : World)
    (ps1 ps2 : list Pending) :
    session (mkConfig w (ps1 ++ p :: ps2)) ->
    answer_fits p ans = true ->
    session (mkConfig (exec (resume p ans) w)
               (ps1 ++ resume_pending p ans ++ ps2)).

(** The worlds a session can be in at any moment. *)
Definition reachable (w : World) : Prop :=
  exists ps, session (mkConfig w ps).

(** The worlds a session can be in while no handler is pending. *)
Definition at_rest (w : World) : Prop :=
  session (mkConfig w []).

Definition is_save_pending (p : Pending) : bool :=
  match p with
  | PSavePost _ | PSaveGet _ => true
  | _ => false
  end.

Definition is_delete_pending (p : Pending) : bool :=
  match p with
  | PDelete _ => true
  | _ => false
  end.

(** The pending handlers that still owe a [setLoading(false)]. *)
Definition is_loading_pending (p : Pending) : bool :=
  match p with
  | PFetch _ | PSaveGet _ | PTest _ => true
  | _ => false
  end.

Definition is_test_pending (p : Pending) : bool :=
  match p with
  | PTest _ => true
  | _ => false
  end.

Definition count_pending (f : Pending -> bool) (ps : list Pending) : nat :=
  length (filter f ps).

Definition flag_count (b : bool) : nat := if b then 1 else 0.

(** The three in-flight flags of a state. *)
Definition flags (s : State) : bool * bool * bool :=
  (loading s, saving s, deleting s).

(** How the flags stand to the pending handlers: [saving] is up exactly
    while the one save is pending, [deleting] exactly while the one delete
    is, and [loading] is up only while some handler that will lower it is
    pending. *)
Definition flags_inv (c : Config) : Prop :=
  count_pending is_save_pending (pending c)
  = flag_count (saving (st (world c)))
  /\ count_pending is_delete_pending (pending c)
     = flag_count (deleting (st (world c)))
  /\ (loading (st (world c)) = true ->
      (1 <= count_pending is_loading_pending (pending c))%nat).

(** ** Observations on traces and states *)

Definition call_of (e : Event) : list Request :=
  match e with
  | EvCall req _ => [req]
  | _ => []
  end.

Definition timeout_of (e : Event) : list (Callback * nat) :=
  match e with
  | EvTimeout cb ms => [(cb, ms)]
  | _ => []
  end.

(** The requests issued from position [n] of the trace on. *)
Definition calls_since (n : nat) (t : list Event) : list Request :=
  flat_map call_of (skipn n t).

(** The timers armed from position [n] of the trace on. *)
Definition timeouts_since (n : nat) (t : list Event) : list (Callback * nat) :=
  flat_map timeout_of (skipn n t).

(** The state shown while the first request accepted by [req_eqb] is in
    flight. *)
Fixpoint inflight_state (req_eqb : Request -> bool) (t : list Event)
    : option State :=
  match t with
  | [] => None
  | EvCall r s :: t' => if req_eqb r then Some s else inflight_state req_eqb t'
  | _ :: t' => inflight_state req_eqb t'
  end.

Definition is_getConfig (r : Request) : bool :=
  match r with
  | Get (ShopifyConfigPath _) => true
  | _ => false
  end.

Definition isSome {A} (o : option A) : bool :=
  match o with
  | Some _ => true
  | None => false
  end.

(** At most one of the two message slots is filled. *)
Definition exclusive (s : State) : bool :=
  negb (isSome (error s) && isSome (success s)).

(** No operation is in flight. *)
Definition idle (s : State) : bool :=
  negb (loading s || saving s || deleting s).

(** Either at most one slot is filled, or the error is the one a rejected
    status fetch leaves. *)
Definition slots_ok (s : State) : Prop :=
  exclusive s = true \/ error s = Some "Failed to fetch integration status".

(** What the form shows while a status request is in flight: [loading] up
    and the error slot emptied. *)
Definition loadingState (w : World) : State :=
  mkState (integrationStatus (st w)) (formData (st w)) true (saving (st w))
    (deleting (st w)) None (success (st w)).

(** ** Sessions used as examples *)

Definition props0 : ShopifyFormProps := mkProps 7 (Some 1%nat) None.

Definition sampleData : ConfigData :=
  mkConfigData 1 7 "a.myshopify.com" (Some "shpat_x") "2024-01" true
    "2024-05-01T10:00:00Z" "2024-05-02T10:00:00Z".

(** The same configuration as the service returns it when it withholds the
    token. *)
Definition sampleDataNoToken : ConfigData :=
  mkConfigData 1 7 "a.myshopify.com" None "2024-01" true
    "2024-05-01T10:00:00Z" "2024-05-02T10:00:00Z".

Definition savedOk : Outcome ShopifyConfigResponse :=
  Resolved (mkConfigResponse true (Some sampleData) None).

(** A fresh form on which the save succeeds and the re-fetch is rejected. *)
Definition w_saved_refetch_rejected : World :=
  exec (perform props0 (ASave savedOk (Rejected "Network Error")))
    initialWorld.

(** A form mounted on a business that has a configuration. *)
Definition w_connected : World :=
  exec (perform props0 (AMount savedOk)) initialWorld.

(** A fresh form in whose token field the user has typed. *)
Definition w_typed : World :=
  exec (perform props0 (AInput "access_token" "shpat_x")) initialWorld.

(** ... and then the business changes to one without a configuration. *)
Definition w_typed_then_absent : World :=
  exec (perform props0
          (AMount (Resolved (mkConfigResponse false None None))))
    w_typed.

(** ** The form fields *)

(** The three inputs of the form; each calls [handleInputChange] with its
    own field name. *)
Inductive Field := StoreUrl | AccessToken | ApiVersion.

Definition field_name (f : Field) : string :=
  match f with
  | StoreUrl => "store_url"
  | AccessToken => "access_token"
  | ApiVersion => "api_version"
  end.

Definition field_value (f : Field) (d : FormData) : string :=
  match f with
  | StoreUrl => form_store_url d
  | AccessToken => form_access_token d
  | ApiVersion => form_api_version d
  end.

(** ** What the component renders *)

Record Button := mkButton {
  btn_label : string;
  btn_disabled : bool
}.

Record Input := mkInput {
  input_value : string;
  input_placeholder : string;
  input_disabled : bool
}.

(** The "Current Configuration" box.  Only these three values are shown;
    the [access_token] of the status is not among them. *)
Record ConfigPanel := mkPanel {
  panel_store_url : option string;
  panel_api_version : option string;
  panel_lastUpdated : option string
}.

Record View := mkView {
  badge : string;
  panel : option ConfigPanel;
  store_url_input : Input;
  access_token_input : Input;
  api_version_input : Input;
  error_alert : option string;
  success_alert : option string;
  save_button : Button;
  test_button : option Button;
  delete_button : option Button;
  cancel_button : option Button
}.

(** [x && <element/>] for a string-or-null [x]: the element is there when
    [x] is truthy. *)
Definition when_truthy (o : option string) : option string :=
  if truthy_opt o then o else None.

(** The JSX the component returns, reduced to what depends on the props and
    the state.  [lastUpdated] is kept as the string the status holds (the
    source formats it with [toLocaleString]). *)
Definition render (props : ShopifyFormProps) (s : State) : View :=
  let status := integrationStatus s in
  let draft := formData s in
  let inputs_off := loading s || saving s in
  mkView
    (if isIntegrated status then "Connected" else "Not Connected")
    (if isIntegrated status
     then Some (mkPanel (status_store_url status) (status_api_version status)
                  (when_truthy (lastUpdated status)))
     else None)
    (mkInput (form_store_url draft) "yourstore.myshopify.com" inputs_off)
    (mkInput (form_access_token draft)
       (if isIntegrated status then "Leave blank to keep existing"
        else "shpat_...")
       inputs_off)
    (mkInput (form_api_version draft) "2024-01" inputs_off)
    (when_truthy (error s))
    (when_truthy (success s))
    (mkButton
       (if saving s then "Saving..."
        else if isIntegrated status then "Update Configuration"
        else "Save Configuration")
       (saving s || loading s))
    (if isIntegrated status
     then Some (mkButton "Test Connection" (loading s))
     else None)
    (if isIntegrated status
     then Some (mkButton (if deleting s then "Disconnecting..." else "Disconnect")
                  (deleting s || loading s))
     else None)
    (match onCancel props with
     | Some _ => Some (mkButton "Cancel" (loading s || saving s || deleting s))
     | None => None
     end).

(** A button that is on the page and not disabled. *)
Definition clickable (b : option Button) : bool :=
  match b with
  | Some b => negb (btn_disabled b)
  | None => false
  end.

Definition input_of (f : Field) (v : View) : Input :=
  match f with
  | StoreUrl => store_url_input v
  | AccessToken => access_token_input v
  | ApiVersion => api_version_input v
  end.

(** ** The requests on the wire *)

Inductive Method := GET | POST | DELETE.

(** [`${n}`] for an integer [n]: plain decimal digits, with a minus sign
    for a negative one.  This is what JavaScript prints for every integer a
    number holds exactly (magnitude at most 2^53 - 1). *)
Definition number_to_string (n : Z) : string :=
  NilZero.string_of_int (Z.to_int n).

Definition MAX_SAFE_INTEGER : Z := 9007199254740991.

Definition safe_integer (n : Z) : bool :=
  (Z.abs n <=? MAX_SAFE_INTEGER)%Z.

Definition path_string (p : Path) : string :=
  match p with
  | ShopifyConfigPath b => "/shopify/config/" ++ number_to_string b
  | ShopifyTestPath b => "/shopify/test/" ++ number_to_string b
  end.

Definition request_method (r : Request) : Method :=
  match r with
  | Get _ => GET
  | Post _ _ => POST
  | Delete _ => DELETE
  end.

Definition request_path (r : Request) : Path :=
  match r with
  | Get p => p
  | Post p _ => p
  | Delete p => p
  end.

Definition request_url (r : Request) : string :=
  path_string (request_path r).



(** What the page looks like while a request is in flight. *)
Definition save_blocked (props : ShopifyFormProps) (s : State) : Prop :=
  btn_disabled (save_button (render props s)) = true
  /\ forall f, input_disabled (input_of f (render props s)) = true.

(** ** More observations *)

(** The states shown while the requests of a trace were in flight. *)
Definition inflight_of (e : Event) : list State :=
  match e with
  | EvCall _ s => [s]
  | _ => []
  end.

Definition inflight_since (n : nat) (t : list Event) : list State :=
  flat_map inflight_of (skipn n t).

(** Whether an action ends in a successful mutation. *)
Definition mutation_succeeds (a : Action) : bool :=
  match a with
  | ASave (Resolved r) _ => resp_success r
  | ADelete true (Resolved r) => del_success r
  | _ => false
  end.

(** A filled message slot holds a non-empty string. *)
Definition message_ok (o : option string) : bool :=
  match o with
  | Some m => truthy m
  | None => true
  end.

(** The status a response with data puts on display. *)
Definition status_of_data (data : ConfigData) : IntegrationStatus :=
  mkStatus true (Some (data_store_url data))
    (if truthy_opt (data_access_token data) then Some MASK else None)
    (Some (data_api_version data)) (Some (data_updated_at data)).


(** The same response data with another token in it. *)
Definition with_token (data : ConfigData) (tok : option string) : ConfigData :=
  mkConfigData (data_id data) (data_business_id data) (data_store_url data)
    tok (data_api_version data) (data_is_active data) (data_created_at data)
    (data_updated_at data).

(** The same state with another token in the displayed status. *)
Definition with_status_token (s : State) (tok : option string) : State :=
  let i := integrationStatus s in
  mkState
    (mkStatus (isIntegrated i) (status_store_url i) tok (status_api_version i)
       (lastUpdated i))
    (formData s) (loading s) (saving s) (deleting s) (error s) (success s).

(** The displayed status is either the empty one or a full one. *)
Definition status_well_formed (i : IntegrationStatus) : Prop :=
  i = notIntegrated
  \/ (isIntegrated i = true
      /\ isSome (status_store_url i) = true
      /\ isSome (status_api_version i) = true
      /\ isSome (lastUpdated i) = true
      /\ (status_access_token i = None \/ status_access_token i = Some MASK)).

(** On a connected form: Save is clicked, then Disconnect while the save is
    pending; the save is answered with an error, then the delete with
    success. *)
Definition w_overlap : World :=
  exec (delete_end props0 (Resolved (mkDeleteResponse true None)))
    (exec (save_post_end props0
             (Resolved (mkConfigResponse false None (Some "bad token"))))
       (exec (delete_begin props0) (exec (save_begin props0) w_connected))).

(** On a connected form: Save is clicked, then Test Connection while the
    save is pending; the save and its re-fetch are answered, the test is
    not yet. *)
Definition w_test_outlives_save : World :=
  exec (save_get_end props0 savedOk)
    (exec (save_post_end props0 savedOk)
       (exec (test_begin props0) (exec (save_begin props0) w_connected))).

(** ** Basic facts *)

Lemma skipn_length_app {A} (l r : list A) : skipn (length l) (l ++ r) = r.
Proof. induction l as [|x l IH]; [reflexivity | exact IH]. Qed.

Lemma calls_since_app (t r : list Event) :
  calls_since (length t) (t ++ r) = flat_map call_of r.
Proof. unfold calls_since. now rewrite skipn_length_app. Qed.

Lemma timeouts_since_app (t r : list Event) :
  timeouts_since (length t) (t ++ r) = flat_map timeout_of r.
Proof. unfold timeouts_since. now rewrite skipn_length_app. Qed.

Lemma truthy_nonempty (s : string) : s <> "" -> truthy s = true.
Proof.
  intros H. unfold truthy. destruct (String.eqb_spec s ""); [contradiction | reflexivity].
Qed.

Lemma MASK_length : String.length MASK = 48.
Proof. reflexivity. Qed.

(** ** Proof automation *)

(** Running a handler on a world whose cells are laid open.  Evaluation is
    lazy, so the state is not copied at every setter; list and string
    operations on unknowns are left folded. *)
Ltac crunch :=
  lazy -[app length skipn calls_since timeouts_since inflight_state
         or_else truthy truthy_opt MASK String.eqb Z.eqb].

Ltac open_world w := destruct w as [[? ? ? ? ? ? ?] ?].

Ltac since_start :=
  rewrite <- ?app_assoc;
  rewrite ?calls_since_app, ?timeouts_since_app, ?skipn_length_app.

(** *** What each handler leaves behind, branch by branch *)

Section HandlerEquations.

Variable props : ShopifyFormProps.
Variable w : World.

Let b := businessId props.
Let s := st w.

Lemma fetch_data (data : ConfigData) (e : option string) :
  fetchIntegrationStatus props (Resolved (mkConfigResponse true (Some data) e)) w
  = (Normal tt,
     mkWorld
       (mkState
          (mkStatus true (Some (data_store_url data))
             (if truthy_opt (data_access_token data) then Some MASK else None)
             (Some (data_api_version data)) (Some (data_updated_at data)))
          (mkFormData (data_store_url data) "" (data_api_version data))
          false (saving s) (deleting s) None (success s))
       (trace w ++ [EvCall (ShopifyService.getConfig b) (loadingState w)])).
Proof. reflexivity. Qed.

Lemma fetch_no_data (r : ShopifyConfigResponse) :
  resp_success r && isSome (resp_data r) = false ->
  fetchIntegrationStatus props (Resolved r) w
  = (Normal tt,
     mkWorld
       (mkState notIntegrated (formData s) false (saving s) (deleting s)
          None (success s))
       (trace w ++ [EvCall (ShopifyService.getConfig b) (loadingState w)])).
Proof.
  destruct r as [[|] [d|] e]; simpl; intros H; try discriminate H; reflexivity.
Qed.

Lemma fetch_rejected (reason : string) :
  fetchIntegrationStatus props (Rejected reason) w
  = (Normal tt,
     mkWorld
       (mkState notIntegrated (formData s) false (saving s) (deleting s)
          (Some "Failed to fetch integration status") (success s))
       (trace w ++ [EvCall (ShopifyService.getConfig b) (loadingState w)]
               ++ [EvConsoleError "Error fetching integration status:" reason])).
Proof.
  open_world w. crunch. now rewrite <- app_assoc.
Qed.

End HandlerEquations.

(** ** Cut handlers and whole handlers *)

(** Run from the click through every answer, the pieces of a handler do
    what the handler does. *)
Lemma fetch_split props o w :
  exec (fetchIntegrationStatus props o) w
  = exec (fetch_end props o) (exec (fetch_begin props) w).
Proof.
  open_world w. destruct o as [[[|] [d|] e]|reason];
    vm_compute; reflexivity.
Qed.

Lemma save_split props o_save o_get w :
  exec (handleSaveConfig props o_save o_get) w
  = if save_goes_on o_save
    then exec (save_get_end props o_get)
           (exec (save_post_end props o_save) (exec (save_begin props) w))
    else exec (save_post_end props o_save) (exec (save_begin props) w).
Proof.
  destruct props as [b [cb|] oc]; open_world w;
    (destruct o_save as [[[|] d e]|reason];
     [destruct o_get as [[[|] [d'|] e']|reason'] | |]);
    vm_compute; reflexivity.
Qed.

Lemma delete_split props o w :
  exec (handleDeleteConfig props true o) w
  = exec (delete_end props o) (exec (delete_begin props) w).
Proof.
  destruct props as [b [cb|] oc]; open_world w;
    destruct o as [[[|] e]|reason]; vm_compute; reflexivity.
Qed.

Lemma delete_declined_split props o w :
  exec (handleDeleteConfig props false o) w = exec delete_ask w.
Proof. reflexivity. Qed.

Lemma test_split props o w :
  exec (handleTestConnection props o) w
  = exec (test_end props o) (exec (test_begin props) w).
Proof.
  open_world w. destruct o as [[[|] e m]|reason]; vm_compute; reflexivity.
Qed.

Lemma enabled_click s a : enabled s a = click_enabled s (click_of a).
Proof. destruct a; reflexivity. Qed.

(** A handler that runs to its end before anything else happens is one of
    the ways a session can go on. *)
Lemma perform_session props a w ps :
  session (mkConfig w ps) ->
  enabled (st w) a = true ->
  session (mkConfig (exec (perform props a) w) ps).
Proof.
  intros Hs He. rewrite enabled_click in He.
  destruct a as [o|field v|o_save o_get|c o|o]; cbn [perform click_of] in *.
  - pose proof (session_click props CMount w ps Hs He) as H1.
    unfold mountEffect. cbn [click_run click_pending] in H1.
    destruct (businessId props =? 0)%Z; [exact H1|].
    rewrite fetch_split.
    exact (session_answer (PFetch props) (AnsConfig o) _ [] ps H1 eq_refl).
  - exact (session_click props (CInput field v) w ps Hs He).
  - pose proof (session_click props CSave w ps Hs He) as H1.
    pose proof (session_answer (PSavePost props) (AnsConfig o_save) _ [] ps
                  H1 eq_refl) as H2.
    rewrite save_split. cbn [resume resume_pending] in H2.
    destruct (save_goes_on o_save); [|exact H2].
    exact (session_answer (PSaveGet props) (AnsConfig o_get) _ [] ps
             H2 eq_refl).
  - pose proof (session_click props (CDelete c) w ps Hs He) as H1.
    destruct c; cbn [click_run click_pending negb] in H1.
    + rewrite delete_split.
      exact (session_answer (PDelete props) (AnsDelete o) _ [] ps H1 eq_refl).
    + exact H1.
  - pose proof (session_click props CTest w ps Hs He) as H1.
    rewrite test_split.
    exact (session_answer (PTest props) (AnsTest o) _ [] ps H1 eq_refl).
Qed.

(** Sessions without overlap are sessions, and end at rest. *)
Lemma sequential_at_rest w : sequential w -> at_rest w.
Proof.
  induction 1 as [|props a w Hw IH He].
  - exact session_init.
  - now apply perform_session.
Qed.

Lemma at_rest_reachable w : at_rest w -> reachable w.
Proof. intros H. now exists []. Qed.

(** *** The flags and the pending handlers *)

Lemma count_pending_app f ps1 ps2 :
  count_pending f (ps1 ++ ps2) = (count_pending f ps1 + count_pending f ps2)%nat.
Proof. unfold count_pending. now rewrite filter_app, length_app. Qed.

Lemma count_pending_cons f p ps :
  count_pending f (p :: ps) = (flag_count (f p) + count_pending f ps)%nat.
Proof. unfold count_pending. cbn. destruct (f p); reflexivity. Qed.

Lemma click_flags props c w :
  flags (st (exec (click_run props c) w))
  = match c with
    | CMount => if (businessId props =? 0)%Z then flags (st w)
                else (true, saving (st w), deleting (st w))
    | CInput _ _ => flags (st w)
    | CSave => (loading (st w), true, deleting (st w))
    | CDelete confirmed =>
        if confirmed then (loading (st w), saving (st w), true)
        else flags (st w)
    | CTest => (true, saving (st w), deleting (st w))
    end.
Proof.
  open_world w. destruct c as [| | |[|]|]; try reflexivity.
  cbn [click_run]. destruct (businessId props =? 0)%Z; reflexivity.
Qed.

Lemma resume_flags p ans w :
  answer_fits p ans = true ->
  flags (st (exec (resume p ans) w))
  = match p, ans with
    | PSavePost _, AnsConfig o =>
        if save_goes_on o then (true, saving (st w), deleting (st w))
        else (loading (st w), false, deleting (st w))
    | PSaveGet _, _ => (false, false, deleting (st w))
    | PDelete _, _ => (loading (st w), saving (st w), false)
    | _, _ => (false, saving (st w), deleting (st w))
    end.
Proof.
  open_world w.
  destruct p as [props|props|props|props|props];
    destruct ans as [o|o|o]; intros H; try discriminate H; clear H;
    destruct props as [b [cb|] oc].
  all: try (destruct o as [[[|] [d|] e]|reason]; reflexivity).
  all: try (destruct o as [[[|] e]|reason]; reflexivity).
  all: destruct o as [[[|] e m]|reason]; reflexivity.
Qed.

(** In every session, however its handlers overlap. *)
Ltac flag_arith :=
  repeat split; intros;
  repeat match goal with
         | H : true = true -> _ |- _ => specialize (H eq_refl)
         | H : false = true -> _ |- _ => clear H
         | H : _ = true |- _ => try discriminate H
         end;
  cbn [flag_count] in *; try lia.

Lemma session_flags c : session c -> flags_inv c.
Proof.
  induction 1 as [|props c w ps Hs IH He|p ans w ps1 ps2 Hs IH Hf];
    unfold flags_inv in *; cbn [world pending] in *.
  - split; [reflexivity | split; [reflexivity | intros H; discriminate H]].
  - destruct IH as (IHs & IHd & IHl).
    pose proof (click_flags props c w) as F. unfold flags in F.
    rewrite !count_pending_app.
    destruct c as [| | |[|]|]; cbn [click_pending click_enabled negb] in *;
      try destruct (businessId props =? 0)%Z;
      pose proof (f_equal (fun x => fst (fst x)) F) as Fl;
      pose proof (f_equal (fun x => snd (fst x)) F) as Fs;
      pose proof (f_equal snd F) as Fd; cbn [fst snd] in Fl, Fs, Fd;
      rewrite Fl, Fs, Fd; clear F Fl Fs Fd;
      cbn [count_pending filter length is_save_pending is_delete_pending
           is_loading_pending Nat.add] in *;
      destruct (loading (st w)), (saving (st w)), (deleting (st w));
      cbn in He; try discriminate He; rewrite ?andb_false_r in He; try discriminate He;
      flag_arith.
  - destruct IH as (IHs & IHd & IHl).
    pose proof (resume_flags p ans w Hf) as F. unfold flags in F.
    rewrite !count_pending_app in *. rewrite !count_pending_cons in *.
    destruct p as [props|props|props|props|props];
      destruct ans as [o|o|o]; try discriminate Hf;
      cbn [resume_pending is_save_pending is_delete_pending
           is_loading_pending flag_count] in *;
      try (destruct (save_goes_on o));
      pose proof (f_equal (fun x => fst (fst x)) F) as Fl;
      pose proof (f_equal (fun x => snd (fst x)) F) as Fs;
      pose proof (f_equal snd F) as Fd; cbn [fst snd] in Fl, Fs, Fd;
      rewrite Fl, Fs, Fd; clear F Fl Fs Fd;
      rewrite ?count_pending_cons;
      cbn [count_pending filter length is_save_pending is_delete_pending
           is_loading_pending flag_count Nat.add] in *;
      destruct (loading (st w)), (saving (st w)), (deleting (st w));
      flag_arith.
Qed.

(** With nothing pending no flag is up. *)
Lemma at_rest_idle w : at_rest w -> idle (st w) = true.
Proof.
  intros H. apply session_flags in H. destruct H as (Hs & Hd & Hl).
  cbn in *. unfold idle.
  destruct (saving (st w)); [discriminate Hs|].
  destruct (deleting (st w)); [discriminate Hd|].
  destruct (loading (st w)); [|reflexivity].
  specialize (Hl eq_refl). inversion Hl.
Qed.

(** ** Properties of the handlers *)


(** C4, as stated, fails on one input: an error string that is there but
    empty is not shown verbatim, because [||] takes the empty string for
    falsy; the fallback is shown instead. *)
Lemma empty_save_error_gets_fallback :
  let w' := exec (handleSaveConfig props0
                    (Resolved (mkConfigResponse false None (Some "")))
                    savedOk) initialWorld in
  error (st w') = Some "Failed to save configuration"
  /\ error (st w') <> Some "".
Proof. split; [reflexivity | discriminate]. Qed.

(** C4, amended.  A save answered with success:false shows the server's
    error string verbatim when it is there and not empty, and "Failed to
    save configuration" when it is missing or empty; [integrationStatus] is
    not touched.  A save whose call is rejected shows "An unexpected error
    occurred". *)
Theorem save_failure_messages (props : ShopifyFormProps) (w : World)
    (o_get : Outcome ShopifyConfigResponse) :
  (forall d e,
     let w' := exec (handleSaveConfig props
                       (Resolved (mkConfigResponse false d e)) o_get) w in
     error (st w') =
       Some (match e with
             | Some msg => if msg =? "" then "Failed to save configuration"
                           else msg
             | None => "Failed to save configuration"
             end)
     /\ success (st w') = None
     /\ integrationStatus (st w') = integrationStatus (st w))
  /\ (forall reason,
        let w' := exec (handleSaveConfig props (Rejected reason) o_get) w in
        error (st w') = Some "An unexpected error occurred"
        /\ success (st w') = None
        /\ integrationStatus (st w') = integrationStatus (st w)).
Proof.
  open_world w; split.
  - intros d e w'; subst w'; crunch. repeat split.
    destruct e as [msg|]; [|reflexivity].
    unfold or_else, truthy. destruct (msg =? ""); reflexivity.
  - intros reason w'; subst w'; crunch. repeat split.
Qed.

(** C5. A status fetch answered with success:false, or without data, shows
    not-integrated and no error.  A rejected status fetch shows "Failed to
    fetch integration status" and not-integrated as well.  In every case the
    error slot is already empty while the request is in flight. *)
Theorem fetch_absence_and_fault (props : ShopifyFormProps) (w : World) :
  (forall d e,
     let w' := exec (fetchIntegrationStatus props
                       (Resolved (mkConfigResponse false d e))) w in
     integrationStatus (st w') = notIntegrated /\ error (st w') = None)
  /\ (forall ok e,
        let w' := exec (fetchIntegrationStatus props
                          (Resolved (mkConfigResponse ok None e))) w in
        integrationStatus (st w') = notIntegrated /\ error (st w') = None)
  /\ (forall reason,
        let w' := exec (fetchIntegrationStatus props (Rejected reason)) w in
        integrationStatus (st w') = notIntegrated
        /\ error (st w') = Some "Failed to fetch integration status")
  /\ (forall o,
        let w' := exec (fetchIntegrationStatus props o) w in
        exists s,
          inflight_state is_getConfig (skipn (length (trace w)) (trace w'))
          = Some s
          /\ error s = None /\ loading s = true).
Proof.
  split; [|split; [|split]].
  - intros [d|] e; split; reflexivity.
  - intros [|] e; split; reflexivity.
  - intros reason; split; reflexivity.
  - intros o w'. exists (loadingState w). subst w'. open_world w.
    destruct o as [[[|] [d|] e]|reason]; crunch; since_start; repeat split.
Qed.

(** C7. Whatever the outcome of a connection test, [integrationStatus], the
    draft, [saving] and [deleting] are as before, and no timer is armed: the
    state after the test is the state before it with [loading] false and the
    two message slots rewritten.  A rejected call sets the error "Connection
    test failed". *)
Theorem test_connection_frame (props : ShopifyFormProps) (w : World)
    (o : Outcome TestResponse) :
  let w' := exec (handleTestConnection props o) w in
  st w' = mkState (integrationStatus (st w)) (formData (st w)) false
            (saving (st w)) (deleting (st w)) (error (st w')) (success (st w'))
  /\ timeouts_since (length (trace w)) (trace w') = []
  /\ calls_since (length (trace w)) (trace w')
     = [ShopifyService.testConnection (businessId props)]
  /\ match o with
     | Rejected _ =>
         error (st w') = Some "Connection test failed"
         /\ success (st w') = None
     | Resolved r =>
         if test_success r
         then error (st w') = None
              /\ success (st w')
                 = Some (or_else (test_message r) "Connection successful!")
         else error (st w')
              = Some (or_else (test_error r) "Connection test failed")
              /\ success (st w') = None
     end.
Proof.
  open_world w. destruct o as [[[|] e m]|reason]; crunch; since_start;
    repeat split.
Qed.

(** C8. A declined confirmation changes no state cell and sends no request:
    the only thing that happened is that the question was asked. *)
Theorem delete_declined_noop (props : ShopifyFormProps) (w : World)
    (o : Outcome DeleteResponse) :
  let w' := exec (handleDeleteConfig props false o) w in
  st w' = st w
  /\ trace w'
     = trace w ++ [EvConfirm "Are you sure you want to disconnect Shopify?"]
  /\ calls_since (length (trace w)) (trace w') = []
  /\ timeouts_since (length (trace w)) (trace w') = [].
Proof.
  open_world w. crunch. since_start. repeat split.
Qed.

(** A handler run started with no flag up ends with no flag up. *)
Lemma idle_perform props a w :
  idle (st w) = true -> idle (st (exec (perform props a) w)) = true.
Proof.
  destruct w as [[i f l sv dl er su] t].
  destruct l, sv, dl; intros H; try discriminate H; clear H.
  destruct a as [o|field v|o_save o_get|c o|o].
  - unfold perform, mountEffect. destruct (businessId props =? 0)%Z.
    + reflexivity.
    + destruct o as [[[|] [d|] e]|reason]; reflexivity.
  - reflexivity.
  - destruct props as [b [cb|] oc];
      (destruct o_save as [[[|] d e]|reason];
       [destruct o_get as [[[|] [d'|] e']|reason'] | |]);
      reflexivity.
  - destruct c; [|reflexivity].
    destruct props as [b [cb|] oc];
      destruct o as [[[|] e]|reason]; reflexivity.
  - destruct o as [[[|] e m]|reason]; reflexivity.
Qed.

(** C9. Every operation completes normally, whatever the remote service
    does, and leaves its in-flight flag false: [loading] after a status
    fetch and after a connection test, [saving] after a save (with
    [loading] false too when the save went on to re-fetch, and untouched
    otherwise), [deleting] after a confirmed delete.  Hence a handler run
    started in the idle state ends in the idle state. *)
Theorem operations_return_to_idle (props : ShopifyFormProps) (w : World) :
  (forall o,
     completion (fetchIntegrationStatus props o) w = Normal tt
     /\ loading (st (exec (fetchIntegrationStatus props o) w)) = false)
  /\ (forall o_save o_get,
        completion (handleSaveConfig props o_save o_get) w = Normal tt
        /\ saving (st (exec (handleSaveConfig props o_save o_get) w)) = false
        /\ loading (st (exec (handleSaveConfig props o_save o_get) w))
           = match o_save with
             | Resolved r => if resp_success r then false else loading (st w)
             | Rejected _ => loading (st w)
             end)
  /\ (forall o,
        completion (handleDeleteConfig props true o) w = Normal tt
        /\ deleting (st (exec (handleDeleteConfig props true o) w)) = false)
  /\ (forall o,
        completion (handleTestConnection props o) w = Normal tt
        /\ loading (st (exec (handleTestConnection props o) w)) = false)
  /\ (forall a,
        idle (st w) = true -> idle (st (exec (perform props a) w)) = true).
Proof.
  split; [|split; [|split; [|split]]].
  - intros [[[|] [d|] e]|reason]; split; reflexivity.
  - destruct props as [b [cb|] oc];
      intros [[[|] d e]|reason] o_get;
      try (repeat split; reflexivity);
      destruct o_get as [[[|] [d'|] e']|reason']; repeat split; reflexivity.
  - destruct props as [b [cb|] oc];
      intros [[[|] e]|reason]; split; reflexivity.
  - intros [[[|] e m]|reason]; split; reflexivity.
  - intros a. apply idle_perform.
Qed.

Lemma operations_return_to_idle_witness : idle (st w_connected) = true.
Proof.
  apply (proj2 (proj2 (proj2 (proj2
           (operations_return_to_idle props0 initialWorld))))
           (AMount savedOk)).
  reflexivity.
Defined.

(** C10. A status fetch answered with success:true and data replaces the
    draft by the server's store URL and API version with a blank token,
    whatever the draft held; so does the re-fetch that follows a successful
    save. *)
Theorem fetch_overwrites_draft (props : ShopifyFormProps) (w : World)
    (data : ConfigData) :
  (forall e,
     formData (st (exec (fetchIntegrationStatus props
                           (Resolved (mkConfigResponse true (Some data) e))) w))
     = mkFormData (data_store_url data) "" (data_api_version data))
  /\ (forall d e e',
        formData (st (exec (handleSaveConfig props
                              (Resolved (mkConfigResponse true d e))
                              (Resolved (mkConfigResponse true (Some data) e')))
                        w))
        = mkFormData (data_store_url data) "" (data_api_version data)).
Proof.
  split.
  - reflexivity.
  - intros d e e'. destruct props as [b [cb|] oc]; reflexivity.
Qed.

Lemma w_saved_refetch_rejected_sequential :
  sequential w_saved_refetch_rejected.
Proof. apply seq_step; [apply seq_init | reflexivity]. Qed.

Lemma w_connected_sequential : sequential w_connected.
Proof. apply seq_step; [apply seq_init | reflexivity]. Qed.

Lemma w_typed_sequential : sequential w_typed.
Proof. apply seq_step; [apply seq_init | reflexivity]. Qed.

Lemma w_typed_then_absent_sequential : sequential w_typed_then_absent.
Proof. apply seq_step; [apply w_typed_sequential | reflexivity]. Qed.

Lemma w_connected_at_rest : at_rest w_connected.
Proof. apply sequential_at_rest, w_connected_sequential. Qed.

(** ** The message slots *)

Lemma slots_ok_fetch props o w :
  slots_ok (st (exec (fetchIntegrationStatus props o) w)).
Proof.
  destruct o as [[[|] [d|] e]|reason]; [left | left | left | left | right];
    reflexivity.
Qed.

Lemma slots_ok_perform props a w :
  slots_ok (st w) -> slots_ok (st (exec (perform props a) w)).
Proof.
  intros H. destruct a as [o|f v|o_save o_get|c o|o].
  - unfold perform, mountEffect. destruct (businessId props =? 0)%Z.
    + exact H.
    + apply slots_ok_fetch.
  - exact H.
  - destruct props as [b [cb|] oc];
      (destruct o_save as [[[|] d e]|reason];
       [destruct o_get as [[[|] [d'|] e']|reason'] | |]);
      first [left; reflexivity | right; reflexivity].
  - destruct c; [|exact H].
    destruct props as [b [cb|] oc];
      destruct o as [[[|] e]|reason]; left; reflexivity.
  - destruct o as [[[|] e m]|reason]; left; reflexivity.
Qed.

(** A status fetch never writes the success slot. *)
Lemma fetch_keeps_success props o w :
  success (st (exec (fetchIntegrationStatus props o) w)) = success (st w).
Proof. destruct o as [[[|] [d|] e]|reason]; reflexivity. Qed.

(** Two overlapping handlers fill both slots as well, with other
    messages. *)
Lemma overlap_fills_both_slots :
  at_rest w_overlap
  /\ error (st w_overlap) = Some "bad token"
  /\ success (st w_overlap) = Some "Shopify disconnected successfully!".
Proof.
  split; [|split; reflexivity].
  pose proof (session_click props0 CSave w_connected [] w_connected_at_rest
                eq_refl) as H1.
  pose proof (session_click props0 (CDelete true) _ _ H1 eq_refl) as H2.
  pose proof (session_answer (PSavePost props0)
                (AnsConfig (Resolved (mkConfigResponse false None
                                        (Some "bad token"))))
                _ [PDelete props0] [] H2 eq_refl) as H3.
  exact (session_answer (PDelete props0)
           (AnsDelete (Resolved (mkDeleteResponse true None)))
           _ [] [] H3 eq_refl).
Qed.

(** C1, as stated, fails: on a fresh form, a save that succeeds and whose
    status re-fetch is rejected ends with both slots filled. *)
Lemma both_slots_after_save_refetch_rejected :
  at_rest w_saved_refetch_rejected
  /\ error (st w_saved_refetch_rejected)
     = Some "Failed to fetch integration status"
  /\ success (st w_saved_refetch_rejected)
     = Some "Shopify configuration saved successfully!"
  /\ exclusive (st w_saved_refetch_rejected) = false.
Proof.
  split; [exact (sequential_at_rest _ w_saved_refetch_rejected_sequential)|].
  repeat split.
Qed.

(** C1, amended.  The two slots are separate cells.  In a session whose
    handlers do not overlap they are both filled only if the error is
    "Failed to fetch integration status".  Right after a click on Save,
    Disconnect (confirmed) or Test Connection both slots are empty.  A
    status fetch, whole or in its two pieces, leaves the success slot as it
    finds it. *)
Theorem slots_exclusive_without_overlap :
  (forall w,
     sequential w ->
     exclusive (st w) = true
     \/ error (st w) = Some "Failed to fetch integration status")
  /\ (forall props w,
        (error (st (exec (save_begin props) w)),
         success (st (exec (save_begin props) w))) = (None, None)
        /\ (error (st (exec (delete_begin props) w)),
            success (st (exec (delete_begin props) w))) = (None, None)
        /\ (error (st (exec (test_begin props) w)),
            success (st (exec (test_begin props) w))) = (None, None))
  /\ (forall props o w,
        success (st (exec (fetch_begin props) w)) = success (st w)
        /\ success (st (exec (fetch_end props o) w)) = success (st w)
        /\ success (st (exec (fetchIntegrationStatus props o) w))
           = success (st w)).
Proof.
  split; [|split].
  - induction 1 as [|props a w Hw IH He].
    + left. reflexivity.
    + apply slots_ok_perform. exact IH.
  - intros props w. open_world w. repeat split.
  - intros props o w. open_world w.
    destruct o as [[[|] [d|] e]|reason]; repeat split.
Qed.

Lemma slots_exclusive_without_overlap_witness :
  exclusive (st w_saved_refetch_rejected) = true
  \/ error (st w_saved_refetch_rejected)
     = Some "Failed to fetch integration status".
Proof.
  apply (proj1 slots_exclusive_without_overlap w_saved_refetch_rejected).
  apply (seq_step props0 (ASave savedOk (Rejected "Network Error"))
           initialWorld seq_init).
  reflexivity.
Defined.

(** ** Re-fetching after a mutation *)

(** C2, as stated, fails for the delete: on a connected form, a confirmed
    delete answered with success:true sends the DELETE request and nothing
    else, and the form is idle afterwards. *)
Lemma delete_success_sends_no_getConfig :
  let w' := exec (handleDeleteConfig props0 true
                    (Resolved (mkDeleteResponse true None))) w_connected in
  at_rest w_connected
  /\ calls_since (length (trace w_connected)) (trace w')
     = [ShopifyService.deleteConfig 7]
  /\ existsb is_getConfig
       (calls_since (length (trace w_connected)) (trace w')) = false
  /\ idle (st w') = true.
Proof.
  split; [exact w_connected_at_rest|].
  repeat split.
Qed.

(** C2, amended.  A save answered with success:true sends the status
    request right after the save request, while [saving] (and [loading]) is
    still up, and both flags are down when the handler ends.  A confirmed
    delete answered with success:true sends the DELETE request only: it
    writes not-integrated itself, without asking the service. *)
Theorem save_refetches_delete_resets_locally (props : ShopifyFormProps)
    (w : World) :
  (forall d e o_get,
     let w' := exec (handleSaveConfig props
                       (Resolved (mkConfigResponse true d e)) o_get) w in
     calls_since (length (trace w)) (trace w')
     = [ShopifyService.saveConfig (businessId props) (formData (st w));
        ShopifyService.getConfig (businessId props)]
     /\ (exists s,
           inflight_state is_getConfig (skipn (length (trace w)) (trace w'))
           = Some s
           /\ saving s = true /\ loading s = true)
     /\ saving (st w') = false
     /\ loading (st w') = false)
  /\ (forall e,
        let w' := exec (handleDeleteConfig props true
                          (Resolved (mkDeleteResponse true e))) w in
        calls_since (length (trace w)) (trace w')
        = [ShopifyService.deleteConfig (businessId props)]
        /\ integrationStatus (st w') = notIntegrated
        /\ deleting (st w') = false).
Proof.
  destruct props as [b [cb|] oc]; open_world w; split.
  1, 3: intros d e [[[|] [d'|] e']|reason] w'; subst w'; crunch; since_start;
    (split; [reflexivity|]);
    (split; [eexists; repeat split|]); split; reflexivity.
  all: intros e w'; subst w'; crunch; since_start; repeat split.
Qed.

(** ** The token *)

(** C6, as stated, fails: a status fetch that brings no data leaves the
    draft alone, so a token typed before it is still in the draft after it.
    And a token reported in an answer with success:false is not masked: the
    status shown is the empty one. *)
Lemma typed_token_survives_fetch_without_data :
  at_rest w_typed_then_absent
  /\ calls_since (length (trace w_typed)) (trace w_typed_then_absent)
     = [ShopifyService.getConfig 7]
  /\ form_access_token (formData (st w_typed_then_absent)) = "shpat_x"
  /\ status_access_token
       (integrationStatus
          (st (exec (fetchIntegrationStatus props0
                       (Resolved (mkConfigResponse false (Some sampleData)
                                    None)))
                 initialWorld))) = None.
Proof.
  split; [exact (sequential_at_rest _ w_typed_then_absent_sequential)|].
  repeat split.
Qed.

(** C6, amended.  A status fetch answered with success:true and data blanks
    the draft token; any other status fetch (success:false, no data, or a
    rejected call) leaves the whole draft as it was.  So the draft token is
    never taken from the response.  The displayed token is the sixteen-bullet
    mask when an answer with success:true and data carries a non-empty
    token, and undefined in every other case (empty or missing token,
    success:false, no data, rejected call): never a value taken from the
    response. *)
Theorem fetch_never_exposes_token (props : ShopifyFormProps) (w : World) :
  (forall data e,
     let w' := exec (fetchIntegrationStatus props
                       (Resolved (mkConfigResponse true (Some data) e))) w in
     form_access_token (formData (st w')) = ""
     /\ (forall tok,
           data_access_token data = Some tok -> tok <> "" ->
           status_access_token (integrationStatus (st w')) = Some MASK)
     /\ (truthy_opt (data_access_token data) = false ->
         status_access_token (integrationStatus (st w')) = None))
  /\ (forall d e,
        let w' := exec (fetchIntegrationStatus props
                          (Resolved (mkConfigResponse false d e))) w in
        formData (st w') = formData (st w)
        /\ status_access_token (integrationStatus (st w')) = None)
  /\ (forall ok e,
        let w' := exec (fetchIntegrationStatus props
                          (Resolved (mkConfigResponse ok None e))) w in
        formData (st w') = formData (st w)
        /\ status_access_token (integrationStatus (st w')) = None)
  /\ (forall reason,
        let w' := exec (fetchIntegrationStatus props (Rejected reason)) w in
        formData (st w') = formData (st w)
        /\ status_access_token (integrationStatus (st w')) = None)
  /\ (forall o,
        let w' := exec (fetchIntegrationStatus props o) w in
        status_access_token (integrationStatus (st w')) = Some MASK
        \/ status_access_token (integrationStatus (st w')) = None).
Proof.
  split; [|split; [|split; [|split]]].
  - intros data e w'. subst w'. unfold exec. rewrite fetch_data. cbn.
    split; [reflexivity|]. split.
    + intros tok Htok Hne. rewrite Htok. cbn.
      now rewrite (truthy_nonempty tok Hne).
    + intros Hf. now rewrite Hf.
  - intros [d|] e; split; reflexivity.
  - intros [|] e; split; reflexivity.
  - intros reason; split; reflexivity.
  - intros [[[|] [d|] e]|reason] w'; subst w'; unfold exec.
    + rewrite fetch_data. cbn.
      destruct (truthy_opt (data_access_token d)); [left | right]; reflexivity.
    + right; reflexivity.
    + right; reflexivity.
    + right; reflexivity.
    + right; reflexivity.
Qed.

Lemma fetch_never_exposes_token_witness :
  status_access_token (integrationStatus (st w_connected)) = Some MASK
  /\ status_access_token
       (integrationStatus
          (st (exec (fetchIntegrationStatus props0
                       (Resolved (mkConfigResponse true
                                    (Some sampleDataNoToken) None)))
                 initialWorld))) = None.
Proof.
  split.
  - apply (proj1 (proj2 (proj1 (fetch_never_exposes_token props0 initialWorld)
                           sampleData None)) "shpat_x").
    + reflexivity.
    + discriminate.
  - apply (proj2 (proj2 (proj1 (fetch_never_exposes_token props0 initialWorld)
                           sampleDataNoToken None))).
    reflexivity.
Defined.

(** ** Editing the draft *)

(** X1. Typing into one of the three inputs writes that field of the draft
    and nothing else: the other two fields, the status, the flags and the
    messages stay as they are, and nothing goes out (no request, no timer,
    no log line). *)
Theorem input_change_frame (f : Field) (v : string) (w : World) :
  let w' := exec (handleInputChange (field_name f) v) w in
  field_value f (formData (st w')) = v
  /\ (forall g, g <> f ->
        field_value g (formData (st w')) = field_value g (formData (st w)))
  /\ integrationStatus (st w') = integrationStatus (st w)
  /\ (loading (st w'), saving (st w'), deleting (st w'))
     = (loading (st w), saving (st w), deleting (st w))
  /\ (error (st w'), success (st w')) = (error (st w), success (st w))
  /\ trace w' = trace w.
Proof.
  open_world w. destruct f; cbn; repeat split;
    intros [| |] Hg; try reflexivity; now contradiction Hg.
Qed.

Lemma input_change_frame_witness :
  field_value StoreUrl
    (formData (st (exec (handleInputChange (field_name AccessToken) "shpat_x")
                     initialWorld)))
  = field_value StoreUrl (formData (st initialWorld)).
Proof.
  apply (proj1 (proj2 (input_change_frame AccessToken "shpat_x" initialWorld))
           StoreUrl).
  discriminate.
Defined.

(** X2. Edits compose as writes to separate cells: a second edit of the
    same field overrides the first, and edits of two different fields give
    the same form whichever comes first. *)
Theorem input_change_compose (w : World) :
  (forall f v1 v2,
     exec (handleInputChange (field_name f) v2)
       (exec (handleInputChange (field_name f) v1) w)
     = exec (handleInputChange (field_name f) v2) w)
  /\ (forall f g v1 v2,
        f <> g ->
        exec (handleInputChange (field_name g) v2)
          (exec (handleInputChange (field_name f) v1) w)
        = exec (handleInputChange (field_name f) v1)
            (exec (handleInputChange (field_name g) v2) w)).
Proof.
  open_world w. split.
  - intros [| |] v1 v2; reflexivity.
  - intros [| |] [| |] v1 v2 Hfg; try reflexivity; now contradiction Hfg.
Qed.

Lemma input_change_compose_witness :
  exec (handleInputChange (field_name ApiVersion) "2024-04")
    (exec (handleInputChange (field_name StoreUrl) "a.myshopify.com")
       initialWorld)
  = exec (handleInputChange (field_name StoreUrl) "a.myshopify.com")
      (exec (handleInputChange (field_name ApiVersion) "2024-04")
         initialWorld).
Proof.
  apply (proj2 (input_change_compose initialWorld) StoreUrl ApiVersion).
  discriminate.
Defined.

(** ** Mounting *)

(** X3. The mount effect does nothing at all for a falsy business id (0):
    no request, no state change.  For any other id it is the status fetch,
    with exactly one request, the GET of that business's configuration.  A
    first load that finds no configuration leaves the form in its initial
    state. *)
Theorem mount_effect_gate (props : ShopifyFormProps)
    (o : Outcome ShopifyConfigResponse) (w : World) :
  (businessId props = 0%Z -> exec (mountEffect props o) w = w)
  /\ (businessId props <> 0%Z ->
      exec (mountEffect props o) w = exec (fetchIntegrationStatus props o) w
      /\ calls_since (length (trace w)) (trace (exec (mountEffect props o) w))
         = [ShopifyService.getConfig (businessId props)])
  /\ (forall d e,
        st (exec (mountEffect props (Resolved (mkConfigResponse false d e)))
              initialWorld)
        = initialState).
Proof.
  unfold mountEffect. split; [|split].
  - intros H. rewrite H. reflexivity.
  - intros H. destruct (Z.eqb_spec (businessId props) 0); [contradiction|].
    split; [reflexivity|].
    open_world w. destruct o as [[[|] [d|] e]|reason]; crunch; since_start;
      reflexivity.
  - intros d e. destruct (businessId props =? 0)%Z; [reflexivity|].
    destruct d; reflexivity.
Qed.

Lemma mount_effect_gate_witness :
  exec (mountEffect (mkProps 0 None None) savedOk) initialWorld = initialWorld
  /\ calls_since 0 (trace (exec (mountEffect props0 savedOk) initialWorld))
     = [ShopifyService.getConfig 7].
Proof.
  split.
  - apply (proj1 (mount_effect_gate (mkProps 0 None None) savedOk initialWorld)).
    reflexivity.
  - apply (proj2 (proj1 (proj2 (mount_effect_gate props0 savedOk initialWorld))
                    ltac:(discriminate))).
Defined.

(** ** Saving *)

(** X4. A save that does not succeed (answered with success:false, or
    rejected) costs the user nothing: the draft and the displayed status are
    as before.  It sent one request, the POST carrying the draft as it was
    at the click, asked for no status and armed no timer. *)
Theorem failed_save_keeps_draft (props : ShopifyFormProps) (w : World)
    (o_get : Outcome ShopifyConfigResponse) :
  (forall d e,
     let w' := exec (handleSaveConfig props
                       (Resolved (mkConfigResponse false d e)) o_get) w in
     formData (st w') = formData (st w)
     /\ integrationStatus (st w') = integrationStatus (st w)
     /\ calls_since (length (trace w)) (trace w')
        = [ShopifyService.saveConfig (businessId props) (formData (st w))]
     /\ timeouts_since (length (trace w)) (trace w') = [])
  /\ (forall reason,
        let w' := exec (handleSaveConfig props (Rejected reason) o_get) w in
        formData (st w') = formData (st w)
        /\ integrationStatus (st w') = integrationStatus (st w)
        /\ calls_since (length (trace w)) (trace w')
           = [ShopifyService.saveConfig (businessId props) (formData (st w))]
        /\ timeouts_since (length (trace w)) (trace w') = []).
Proof.
  open_world w; split; intros; subst w'; crunch; since_start; repeat split.
Qed.



(** ** Disconnecting *)

(** X7. A confirmed delete sends exactly one request, the DELETE of the
    business's configuration, whatever the answer; when it does not succeed
    the draft is as before. *)
Theorem confirmed_delete_requests (props : ShopifyFormProps) (w : World) :
  (forall o,
     calls_since (length (trace w))
       (trace (exec (handleDeleteConfig props true o) w))
     = [ShopifyService.deleteConfig (businessId props)])
  /\ (forall e,
        formData (st (exec (handleDeleteConfig props true
                              (Resolved (mkDeleteResponse false e))) w))
        = formData (st w))
  /\ (forall reason,
        formData (st (exec (handleDeleteConfig props true (Rejected reason)) w))
        = formData (st w)).
Proof.
  destruct props as [b [cb|] oc]; open_world w; (split; [|split]).
  1, 4: intros [[[|] e]|reason]; crunch; since_start; reflexivity.
  all: intros; reflexivity.
Qed.

(** X8. A confirmed delete answered with success:true puts the status
    back to not-integrated and the draft back to its defaults, lowers
    [deleting], empties the error slot and shows its success message; it
    never writes [loading] or [saving].  So on a form with no handler
    pending, with nothing else happening in between, it ends in the initial
    state, except for the message.  Taken alone, the step that handles the
    answer does not write the error slot: an error that another handler put
    there during the flight stays. *)
Theorem disconnect_restores_initial_state (props : ShopifyFormProps)
    (w : World) (e : option string) :
  st (exec (handleDeleteConfig props true
              (Resolved (mkDeleteResponse true e))) w)
  = mkState notIntegrated defaultFormData (loading (st w)) (saving (st w))
      false None (Some "Shopify disconnected successfully!")
  /\ (at_rest w ->
      st (exec (handleDeleteConfig props true
                  (Resolved (mkDeleteResponse true e))) w)
      = mkState notIntegrated defaultFormData false false false None
          (Some "Shopify disconnected successfully!"))
  /\ st (exec (delete_end props (Resolved (mkDeleteResponse true e))) w)
     = mkState notIntegrated defaultFormData (loading (st w)) (saving (st w))
         false (error (st w)) (Some "Shopify disconnected successfully!").
Proof.
  split; [|split].
  - destruct props as [b [cb|] oc]; open_world w; reflexivity.
  - intros Hw. apply at_rest_idle in Hw.
    destruct w as [[i f l sv dl er su] t]. unfold idle in Hw. cbn in Hw.
    destruct l, sv, dl; try discriminate Hw.
    destruct props as [b [cb|] oc]; reflexivity.
  - destruct props as [b [cb|] oc]; open_world w; reflexivity.
Qed.

Lemma disconnect_restores_initial_state_witness :
  st (exec (handleDeleteConfig props0 true
              (Resolved (mkDeleteResponse true None))) w_connected)
  = mkState notIntegrated defaultFormData false false false None
      (Some "Shopify disconnected successfully!").
Proof.
  apply (proj1 (proj2 (disconnect_restores_initial_state props0 w_connected
                         None))).
  apply sequential_at_rest.
  apply (seq_step props0 (AMount savedOk) initialWorld seq_init).
  reflexivity.
Defined.

(** ** Fetching the status *)

(** X9. A status fetch touches neither the success message nor the saving
    and deleting flags, sends exactly one request (the GET of the business's
    configuration) and arms no timer, whatever the answer. *)
Theorem fetch_frame (props : ShopifyFormProps) (w : World)
    (o : Outcome ShopifyConfigResponse) :
  let w' := exec (fetchIntegrationStatus props o) w in
  success (st w') = success (st w)
  /\ saving (st w') = saving (st w)
  /\ deleting (st w') = deleting (st w)
  /\ calls_since (length (trace w)) (trace w')
     = [ShopifyService.getConfig (businessId props)]
  /\ timeouts_since (length (trace w)) (trace w') = [].
Proof.
  open_world w. destruct o as [[[|] [d|] e]|reason]; crunch; since_start;
    repeat split.
Qed.

(** X10. Refreshing is idempotent on the state: a second status fetch that
    gets the same answer as the first leaves every cell as the first left
    it. *)
Theorem fetch_idempotent (props : ShopifyFormProps) (w : World)
    (o : Outcome ShopifyConfigResponse) :
  st (exec (fetchIntegrationStatus props o)
        (exec (fetchIntegrationStatus props o) w))
  = st (exec (fetchIntegrationStatus props o) w).
Proof.
  open_world w. destruct o as [[[|] [d|] e]|reason]; reflexivity.
Qed.

(** X11. Which token the response carries makes no difference to anything
    the component does or keeps: two answers that differ only in their
    (non-empty) token leave the same state and the same trace. *)
Theorem token_value_never_observed (props : ShopifyFormProps) (w : World)
    (data : ConfigData) (e : option string) (tok1 tok2 : string) :
  tok1 <> "" -> tok2 <> "" ->
  exec (fetchIntegrationStatus props
          (Resolved (mkConfigResponse true (Some (with_token data (Some tok1))) e)))
    w
  = exec (fetchIntegrationStatus props
            (Resolved (mkConfigResponse true (Some (with_token data (Some tok2))) e)))
      w.
Proof.
  intros H1 H2. unfold exec. rewrite !fetch_data. cbn.
  now rewrite (truthy_nonempty tok1 H1), (truthy_nonempty tok2 H2).
Qed.

Lemma token_value_never_observed_witness :
  exec (fetchIntegrationStatus props0
          (Resolved (mkConfigResponse true
                       (Some (with_token sampleData (Some "shpat_x"))) None)))
    initialWorld
  = exec (fetchIntegrationStatus props0
            (Resolved (mkConfigResponse true
                         (Some (with_token sampleData (Some "shpat_y"))) None)))
      initialWorld.
Proof.
  apply (token_value_never_observed props0 initialWorld sampleData None
           "shpat_x" "shpat_y"); discriminate.
Defined.

(** ** All handlers at once *)

Lemma skipn_length_self {A} (l : list A) : skipn (length l) l = [].
Proof. induction l as [|x l IH]; [reflexivity | exact IH]. Qed.

Lemma calls_since_self (t : list Event) : calls_since (length t) t = [].
Proof. unfold calls_since. now rewrite skipn_length_self. Qed.

Lemma timeouts_since_self (t : list Event) : timeouts_since (length t) t = [].
Proof. unfold timeouts_since. now rewrite skipn_length_self. Qed.

Lemma inflight_since_self (t : list Event) : inflight_since (length t) t = [].
Proof. unfold inflight_since. now rewrite skipn_length_self. Qed.

Lemma inflight_since_app (t r : list Event) :
  inflight_since (length t) (t ++ r) = flat_map inflight_of r.
Proof. unfold inflight_since. now rewrite skipn_length_app. Qed.

Lemma or_else_truthy (o : option string) (d : string) :
  truthy d = true -> truthy (or_else o d) = true.
Proof.
  intros Hd. destruct o as [s|]; simpl; [|exact Hd].
  destruct (truthy s) eqn:Hs; [exact Hs | exact Hd].
Qed.

Lemma when_truthy_ok (o : option string) :
  message_ok o = true -> when_truthy o = o.
Proof.
  unfold when_truthy. destruct o as [m|]; simpl; [|reflexivity].
  now intros ->.
Qed.

(** One goal per way an action can go. *)
Ltac by_action a :=
  destruct a as [o|field v|o_save o_get|c o|o];
  [ unfold perform, mountEffect;
    match goal with |- context [(?b =? 0)%Z] => destruct (b =? 0)%Z end;
    [| destruct o as [[[|] [d|] e]|reason]]
  | idtac
  | destruct o_save as [[[|] d e]|reason];
    [destruct o_get as [[[|] [d'|] e']|reason'] | |]
  | destruct c; [destruct o as [[[|] e]|reason] |]
  | destruct o as [[[|] e m]|reason] ].

Ltac settle_trace :=
  rewrite <- ?app_assoc;
  rewrite ?calls_since_app, ?timeouts_since_app, ?inflight_since_app,
    ?calls_since_self, ?timeouts_since_self, ?inflight_since_self.

(** X12. The [onSuccess] timer is armed by a save or a confirmed delete
    that the service answers with success:true, and by nothing else: no
    status fetch, edit, connection test, declined or failed operation arms
    one.  When armed it is a single timer of 1500 ms, and without an
    [onSuccess] prop there is none. *)
Theorem timers_only_on_successful_mutation (props : ShopifyFormProps)
    (a : Action) (w : World) :
  timeouts_since (length (trace w)) (trace (exec (perform props a) w))
  = if mutation_succeeds a
    then match onSuccess props with
         | Some cb => [(cb, 1500)]
         | None => []
         end
    else [].
Proof.
  destruct props as [b [cb|] oc]; open_world w; by_action a;
    crunch; settle_trace; reflexivity.
Qed.


(** ** The messages on display *)

Lemma message_ok_click props c w :
  message_ok (error (st w)) = true ->
  message_ok (success (st w)) = true ->
  message_ok (error (st (exec (click_run props c) w))) = true
  /\ message_ok (success (st (exec (click_run props c) w))) = true.
Proof.
  destruct w as [[i f l sv dl er su] t]; cbn [st error success];
    intros He Hs.
  destruct c as [| | |[|]|]; cbn [click_run negb];
    try destruct (businessId props =? 0)%Z;
    split; first [exact He | exact Hs | reflexivity].
Qed.

Lemma message_ok_resume p ans w :
  message_ok (error (st w)) = true ->
  message_ok (success (st w)) = true ->
  message_ok (error (st (exec (resume p ans) w))) = true
  /\ message_ok (success (st (exec (resume p ans) w))) = true.
Proof.
  destruct w as [[i f l sv dl er su] t]; cbn [st error success];
    intros He Hs.
  destruct p as [props|props|props|props|props];
    destruct ans as [o|o|o]; cbn [resume];
    try (split; [exact He | exact Hs]);
    destruct props as [b [cb|] oc].
  all: try (destruct o as [[[|] [d|] e]|reason]; crunch;
            split;
            first [ exact He | exact Hs | reflexivity
                  | apply or_else_truthy; reflexivity ]).
  all: try (destruct o as [[[|] e]|reason]; crunch;
            split;
            first [ exact He | exact Hs | reflexivity
                  | apply or_else_truthy; reflexivity ]).
  all: destruct o as [[[|] e m]|reason]; crunch;
    split;
    first [ exact He | exact Hs | reflexivity
          | apply or_else_truthy; reflexivity ].
Qed.

Lemma session_messages c :
  session c ->
  message_ok (error (st (world c))) = true
  /\ message_ok (success (st (world c))) = true.
Proof.
  induction 1 as [|props c w ps Hs IH He|p ans w ps1 ps2 Hs IH Hf];
    cbn [world] in *.
  - split; reflexivity.
  - destruct IH as [IHe IHs]. now apply message_ok_click.
  - destruct IH as [IHe IHs]. now apply message_ok_resume.
Qed.

(** X14. At every moment of every session, however its handlers overlap, a
    message slot that is filled holds a non-empty string (the fallbacks
    step in for empty server strings).  So the two alerts on the page show
    exactly what is in the two slots. *)
Theorem messages_never_empty (w : World) :
  reachable w ->
  message_ok (error (st w)) = true
  /\ message_ok (success (st w)) = true
  /\ (forall props,
        error_alert (render props (st w)) = error (st w)
        /\ success_alert (render props (st w)) = success (st w)).
Proof.
  intros [ps Hw].
  destruct (session_messages _ Hw) as [He Hs]. cbn [world] in He, Hs.
  repeat split; try assumption.
  - cbn. now apply when_truthy_ok.
  - cbn. now apply when_truthy_ok.
Qed.

Lemma messages_never_empty_witness :
  message_ok (error (st w_overlap)) = true
  /\ message_ok (success (st w_overlap)) = true
  /\ (forall props,
        error_alert (render props (st w_overlap)) = error (st w_overlap)
        /\ success_alert (render props (st w_overlap))
           = success (st w_overlap)).
Proof.
  apply (messages_never_empty w_overlap).
  exists []. exact (proj1 overlap_fills_both_slots).
Defined.

(** ** The page *)

(** X15. Whenever no handler is pending, however the handlers before
    overlapped, nothing on the page is disabled: the three inputs and the
    Save button can be used, Test Connection and
    Disconnect can be used exactly when the form shows an integration,
    Cancel exactly when the parent passed [onCancel]; and the buttons carry
    their resting labels. *)
Theorem page_at_rest_is_interactive (props : ShopifyFormProps) (w : World) :
  at_rest w ->
  let v := render props (st w) in
  (forall f, input_disabled (input_of f v) = false)
  /\ btn_disabled (save_button v) = false
  /\ btn_label (save_button v)
     = (if isIntegrated (integrationStatus (st w))
        then "Update Configuration" else "Save Configuration")
  /\ clickable (test_button v) = isIntegrated (integrationStatus (st w))
  /\ clickable (delete_button v) = isIntegrated (integrationStatus (st w))
  /\ option_map btn_label (delete_button v)
     = (if isIntegrated (integrationStatus (st w))
        then Some "Disconnect" else None)
  /\ clickable (cancel_button v) = isSome (onCancel props).
Proof.
  intros Hw. apply at_rest_idle in Hw.
  destruct w as [[[ii su sa sv lu] f l sv' dl er sc] t].
  unfold idle in Hw. cbn in Hw.
  destruct l, sv', dl; try discriminate Hw.
  destruct props as [b os [oc|]]; destruct ii; cbn; repeat split;
    intros [| |]; reflexivity.
Qed.

Lemma page_at_rest_is_interactive_witness :
  clickable (delete_button (render props0 (st w_connected))) = true.
Proof.
  apply (proj1 (proj2 (proj2 (proj2 (proj2
           (page_at_rest_is_interactive props0 w_connected
              (sequential_at_rest w_connected
                 (seq_step props0 (AMount savedOk) initialWorld seq_init
                    eq_refl)))))))).
Defined.

Ltac run_inflight :=
  lazy -[app length skipn inflight_since or_else truthy truthy_opt MASK
         String.eqb Z.eqb].

(** The flag a test and a status fetch hold up as their request goes out. *)
Lemma test_inflight_loading props w o :
  Forall (fun s => loading s = true)
    (inflight_since (length (trace w))
       (trace (exec (handleTestConnection props o) w))).
Proof.
  open_world w; destruct o as [[[|] e m]|reason];
    run_inflight; settle_trace; repeat constructor.
Qed.

Lemma fetch_inflight_loading props w o :
  Forall (fun s => loading s = true)
    (inflight_since (length (trace w))
       (trace (exec (fetchIntegrationStatus props o) w))).
Proof.
  open_world w; destruct o as [[[|] [d|] e]|reason];
    run_inflight; settle_trace; repeat constructor.
Qed.

(** What each flag does to the page. *)
Lemma render_saving props s :
  saving s = true ->
  save_blocked props s
  /\ btn_label (save_button (render props s)) = "Saving...".
Proof.
  destruct s as [[ii su sa sv lu] f l sv' dl er sc]. cbn. intros ->.
  unfold save_blocked. destruct l; cbn; repeat split; intros [| |]; reflexivity.
Qed.

Lemma render_loading props s :
  loading s = true ->
  save_blocked props s
  /\ clickable (test_button (render props s)) = false
  /\ clickable (delete_button (render props s)) = false.
Proof.
  destruct s as [[ii su sa sv lu] f l sv' dl er sc]. cbn. intros ->.
  unfold save_blocked.
  destruct sv', dl, ii; cbn; repeat split; intros [| |]; reflexivity.
Qed.

Lemma render_deleting props s :
  deleting s = true ->
  clickable (delete_button (render props s)) = false
  /\ (isIntegrated (integrationStatus s) = true ->
      option_map btn_label (delete_button (render props s))
      = Some "Disconnecting...").
Proof.
  destruct s as [[ii su sa sv lu] f l sv' dl er sc]. cbn. intros ->.
  destruct ii; cbn; split; try reflexivity; intros H; discriminate H.
Qed.

Lemma count_pending_in f p ps :
  In p ps -> f p = true -> (1 <= count_pending f ps)%nat.
Proof.
  intros Hin Hf. induction ps as [|q ps IH]; [contradiction|].
  rewrite count_pending_cons. destruct Hin as [->|Hin].
  - rewrite Hf. cbn. lia.
  - specialize (IH Hin). lia.
Qed.

(** A save that is pending holds [saving] up, a delete [deleting]. *)
Lemma pending_save_saving c p :
  session c -> In p (pending c) -> is_save_pending p = true ->
  saving (st (world c)) = true.
Proof.
  intros Hs Hin Hp. destruct (session_flags c Hs) as (H & _ & _).
  pose proof (count_pending_in _ _ _ Hin Hp) as Hc. rewrite H in Hc.
  destruct (saving (st (world c))); [reflexivity | inversion Hc].
Qed.

Lemma pending_delete_deleting c p :
  session c -> In p (pending c) -> is_delete_pending p = true ->
  deleting (st (world c)) = true.
Proof.
  intros Hs Hin Hp. destruct (session_flags c Hs) as (_ & H & _).
  pose proof (count_pending_in _ _ _ Hin Hp) as Hc. rewrite H in Hc.
  destruct (deleting (st (world c))); [reflexivity | inversion Hc].
Qed.

Lemma w_test_outlives_save_session :
  session (mkConfig w_test_outlives_save [PTest props0]).
Proof.
  pose proof (session_click props0 CSave w_connected [] w_connected_at_rest
                eq_refl) as H1.
  pose proof (session_click props0 CTest _ _ H1 eq_refl) as H2.
  pose proof (session_answer (PSavePost props0) (AnsConfig savedOk)
                _ [PTest props0] [] H2 eq_refl) as H3.
  exact (session_answer (PSaveGet props0) (AnsConfig savedOk)
           _ [PTest props0] [] H3 eq_refl).
Qed.

(** X16. In every session, however its handlers overlap, the Save button
    is disabled and reads "Saving...", and the inputs are disabled, for as
    long as a save is pending (through both of its requests); and the
    Disconnect button is not clickable, and reads "Disconnecting..." when it
    is on the page, for as long as a delete is pending.  A connection test
    and a status fetch have Save, the inputs, Test Connection and Disconnect
    unusable at the moment their request is sent, but not for the whole
    flight: [loading] is shared, and a save's re-fetch that ends meanwhile
    lowers it, so that Test Connection is clickable again while a test is
    still pending. *)
Theorem inflight_controls_disabled (props : ShopifyFormProps) :
  (forall c p,
     session c -> In p (pending c) -> is_save_pending p = true ->
     save_blocked props (st (world c))
     /\ btn_label (save_button (render props (st (world c)))) = "Saving...")
  /\ (forall c p,
        session c -> In p (pending c) -> is_delete_pending p = true ->
        clickable (delete_button (render props (st (world c)))) = false
        /\ (isIntegrated (integrationStatus (st (world c))) = true ->
            option_map btn_label (delete_button (render props (st (world c))))
            = Some "Disconnecting..."))
  /\ (forall w o,
        Forall (fun s => save_blocked props s
                         /\ clickable (test_button (render props s)) = false
                         /\ clickable (delete_button (render props s)) = false)
          (inflight_since (length (trace w))
             (trace (exec (handleTestConnection props o) w))))
  /\ (forall w o,
        Forall (fun s => save_blocked props s
                         /\ clickable (test_button (render props s)) = false
                         /\ clickable (delete_button (render props s)) = false)
          (inflight_since (length (trace w))
             (trace (exec (fetchIntegrationStatus props o) w))))
  /\ (exists c,
        session c
        /\ In (PTest props0) (pending c)
        /\ clickable (test_button (render props (st (world c)))) = true).
Proof.
  split; [|split; [|split; [|split]]].
  - intros c p Hs Hin Hp. apply render_saving.
    exact (pending_save_saving c p Hs Hin Hp).
  - intros c p Hs Hin Hp. apply render_deleting.
    exact (pending_delete_deleting c p Hs Hin Hp).
  - intros w o.
    eapply Forall_impl; [|apply test_inflight_loading].
    intros s Hs. now apply render_loading.
  - intros w o.
    eapply Forall_impl; [|apply fetch_inflight_loading].
    intros s Hs. now apply render_loading.
  - exists (mkConfig w_test_outlives_save [PTest props0]).
    split; [exact w_test_outlives_save_session|].
    split; [left; reflexivity | reflexivity].
Qed.

Lemma inflight_controls_disabled_witness :
  save_blocked props0 (st (exec (save_begin props0) w_connected))
  /\ btn_label (save_button
                  (render props0 (st (exec (save_begin props0) w_connected))))
     = "Saving...".
Proof.
  apply (proj1 (inflight_controls_disabled props0)
           (mkConfig (exec (save_begin props0) w_connected) [PSavePost props0])
           (PSavePost props0)).
  - exact (session_click props0 CSave w_connected []
             (sequential_at_rest w_connected
                (seq_step props0 (AMount savedOk) initialWorld seq_init
                   eq_refl))
             eq_refl).
  - left. reflexivity.
  - reflexivity.
Defined.

(** X17. The flags guard each action separately.  On a form with no
    handler pending, while
    the DELETE of a confirmed disconnect is in flight the Save button and
    the three inputs stay usable; and while the POST of a save is in flight
    the Disconnect button is clickable whenever the form shows an
    integration. *)
Theorem flags_guard_per_action (props : ShopifyFormProps) (w : World) :
  at_rest w ->
  (forall o,
     Forall (fun s =>
               btn_disabled (save_button (render props s)) = false
               /\ forall f, input_disabled (input_of f (render props s)) = false)
       (inflight_since (length (trace w))
          (trace (exec (handleDeleteConfig props true o) w))))
  /\ (forall o_save o_get,
        exists s rest,
          inflight_since (length (trace w))
            (trace (exec (handleSaveConfig props o_save o_get) w))
          = s :: rest
          /\ clickable (delete_button (render props s))
             = isIntegrated (integrationStatus (st w))).
Proof.
  intros Hw. apply at_rest_idle in Hw.
  destruct w as [[[ii su sa sv lu] f l sv' dl er sc] t].
  unfold idle in Hw. cbn in Hw.
  destruct l, sv', dl; try discriminate Hw. clear Hw.
  destruct props as [b [cb|] oc]; split.
  1, 3: intros [[[|] e]|reason]; run_inflight; settle_trace;
    repeat constructor; intros [| |]; reflexivity.
  all: intros [[[|] d e]|reason] o_get;
    [destruct o_get as [[[|] [d'|] e']|reason'] | |];
    run_inflight; settle_trace; cbn [flat_map inflight_of app];
    eexists; eexists; (split; [reflexivity|]); destruct ii; reflexivity.
Qed.

Lemma flags_guard_per_action_witness :
  Forall (fun s =>
            btn_disabled (save_button (render props0 s)) = false
            /\ forall f, input_disabled (input_of f (render props0 s)) = false)
    (inflight_since (length (trace w_connected))
       (trace (exec (handleDeleteConfig props0 true
                       (Resolved (mkDeleteResponse true None))) w_connected))).
Proof.
  apply (proj1 (flags_guard_per_action props0 w_connected
                  (sequential_at_rest w_connected
                     (seq_step props0 (AMount savedOk) initialWorld seq_init
                        eq_refl)))).
Defined.

(** X18. Nothing on the page depends on the token in a status response,
    not even on whether there is one: the status keeps a mask or nothing,
    and the page shows neither. *)
Theorem page_independent_of_token (props : ShopifyFormProps) (w : World)
    (data : ConfigData) (e : option string) (tok1 tok2 : option string) :
  render props
    (st (exec (fetchIntegrationStatus props
                 (Resolved (mkConfigResponse true
                              (Some (with_token data tok1)) e))) w))
  = render props
      (st (exec (fetchIntegrationStatus props
                   (Resolved (mkConfigResponse true
                                (Some (with_token data tok2)) e))) w)).
Proof.
  unfold exec. rewrite !fetch_data. cbn.
  destruct (truthy_opt tok1), (truthy_opt tok2); reflexivity.
Qed.

(** ** The client's URLs *)

Lemma number_to_string_roundtrip (n : Z) :
  NilZero.int_of_string (number_to_string n) = Some (Z.to_int n).
Proof.
  unfold number_to_string. apply NilZero.isi.
  - destruct n as [|p|p]; cbn; try discriminate.
    intros [= H]. now apply (DecimalPos.Unsigned.to_uint_nonnil p).
  - destruct n as [|p|p]; cbn; try discriminate.
    intros [= H]. now apply (DecimalPos.Unsigned.to_uint_nonnil p).
Qed.

Lemma number_to_string_inj (n m : Z) :
  number_to_string n = number_to_string m -> n = m.
Proof.
  intros H. apply DecimalZ.to_int_inj.
  assert (E : Some (Z.to_int n) = Some (Z.to_int m))
    by now rewrite <- !number_to_string_roundtrip, H.
  now injection E.
Qed.

(** X19. For business ids that are safe integers, the client never mixes
    two resources up: the configuration URLs of two businesses are equal
    only if the businesses are, likewise the test URLs, and a configuration
    URL is never a test URL.  Reading, saving and deleting a business's
    configuration use one URL and differ by their method. *)
Theorem service_urls_separate (b1 b2 : Z) (c : FormData) :
  safe_integer b1 = true -> safe_integer b2 = true ->
  (request_url (ShopifyService.getConfig b1)
   = request_url (ShopifyService.getConfig b2) -> b1 = b2)
  /\ (request_url (ShopifyService.testConnection b1)
      = request_url (ShopifyService.testConnection b2) -> b1 = b2)
  /\ request_url (ShopifyService.testConnection b1)
     <> request_url (ShopifyService.getConfig b2)
  /\ request_url (ShopifyService.saveConfig b1 c)
     = request_url (ShopifyService.getConfig b1)
  /\ request_url (ShopifyService.deleteConfig b1)
     = request_url (ShopifyService.getConfig b1)
  /\ (request_method (ShopifyService.getConfig b1),
      request_method (ShopifyService.saveConfig b1 c),
      request_method (ShopifyService.deleteConfig b1),
      request_method (ShopifyService.testConnection b1))
     = (GET, POST, DELETE, GET).
Proof.
  intros _ _. repeat split.
  - cbn. intros [= H]. now apply number_to_string_inj.
  - cbn. intros [= H]. now apply number_to_string_inj.
  - cbn. intros [= H].
Qed.

Lemma service_urls_separate_witness :
  request_url (ShopifyService.testConnection 7)
  <> request_url (ShopifyService.getConfig 7).
Proof.
  apply (proj1 (proj2 (proj2
           (service_urls_separate 7 7 defaultFormData eq_refl eq_refl)))).
Defined.

Example number_to_string_samples :
  (number_to_string 7, number_to_string 0, number_to_string (-12),
   request_url (ShopifyService.getConfig 1024))
  = ("7", "0", "-12", "/shopify/config/1024").
Proof. reflexivity. Qed.

(** ** What is on display *)

Lemma status_of_data_well_formed (data : ConfigData) :
  status_well_formed (status_of_data data).
Proof.
  right. cbn. repeat split.
  destruct (truthy_opt (data_access_token data)); [right | left]; reflexivity.
Qed.


Lemma status_well_formed_click props c w :
  status_well_formed (integrationStatus (st w)) ->
  status_well_formed (integrationStatus (st (exec (click_run props c) w))).
Proof.
  destruct w as [[i f l sv dl er su] t]; cbn [st integrationStatus];
    intros Hi.
  destruct c as [| | |[|]|]; cbn [click_run negb];
    try destruct (businessId props =? 0)%Z; exact Hi.
Qed.

Lemma status_well_formed_resume p ans w :
  status_well_formed (integrationStatus (st w)) ->
  status_well_formed (integrationStatus (st (exec (resume p ans) w))).
Proof.
  destruct w as [[i f l sv dl er su] t]; cbn [st integrationStatus];
    intros Hi.
  destruct p as [props|props|props|props|props];
    destruct ans as [o|o|o]; cbn [resume]; try exact Hi;
    destruct props as [b [cb|] oc].
  all: try (destruct o as [[[|] [d|] e]|reason]; crunch;
            first [ exact Hi | left; reflexivity
                  | exact (status_of_data_well_formed d) ]).
  all: try (destruct o as [[[|] e]|reason]; crunch;
            first [ exact Hi | left; reflexivity ]).
  all: destruct o as [[[|] e m]|reason]; crunch; exact Hi.
Qed.

Lemma session_status c :
  session c -> status_well_formed (integrationStatus (st (world c))).
Proof.
  induction 1 as [|props c w ps Hs IH He|p ans w ps1 ps2 Hs IH Hf];
    cbn [world] in *.
  - left. reflexivity.
  - now apply status_well_formed_click.
  - now apply status_well_formed_resume.
Qed.

(** X21. At every moment of every session, however its handlers overlap,
    the displayed status is either the empty not-integrated one, or an
    integrated one with its store URL, API version and update time all
    present and with a token that is the mask or undefined.  An integrated
    status with a missing value, or with any other token string, never
    occurs. *)
Theorem reachable_status_well_formed (w : World) :
  reachable w ->
  integrationStatus (st w) = notIntegrated
  \/ (isIntegrated (integrationStatus (st w)) = true
      /\ isSome (status_store_url (integrationStatus (st w))) = true
      /\ isSome (status_api_version (integrationStatus (st w))) = true
      /\ isSome (lastUpdated (integrationStatus (st w))) = true
      /\ (status_access_token (integrationStatus (st w)) = None
          \/ status_access_token (integrationStatus (st w)) = Some MASK)).
Proof.
  intros [ps Hw]. exact (session_status _ Hw).
Qed.

Lemma reachable_status_well_formed_witness :
  integrationStatus (st w_connected) = notIntegrated
  \/ (isIntegrated (integrationStatus (st w_connected)) = true
      /\ isSome (status_store_url (integrationStatus (st w_connected))) = true
      /\ isSome (status_api_version (integrationStatus (st w_connected))) = true
      /\ isSome (lastUpdated (integrationStatus (st w_connected))) = true
      /\ (status_access_token (integrationStatus (st w_connected)) = None
          \/ status_access_token (integrationStatus (st w_connected))
             = Some MASK)).
Proof.
  apply (reachable_status_well_formed w_connected).
  exists [].
  apply sequential_at_rest.
  apply (seq_step props0 (AMount savedOk) initialWorld seq_init).
  reflexivity.
Defined.
